(** * Transaction ledger service: the Go program of Deployments/go/main.go

    A shallow embedding of the HTTP service (its handlers, the metrics
    middleware and the decorating response writer) and the properties its
    specification states about them.

    Go values are kept as the program has them: [int] is a 64-bit integer
    with wrap-around, [float64] is the kernel's binary64, strings are byte
    strings, label-keyed metric vectors are finite maps.  The libraries the
    program calls (database/sql, encoding/json, net/http) are interfaces
    here: a type class each, with one instance used by the examples. *)

From Stdlib Require Import ZArith String Ascii List Bool Lia.
From Stdlib Require Import Floats DecimalString DecimalPos.
From stdpp Require Import gmap strings.

Import ListNotations.
Local Open Scope string_scope.
Local Open Scope Z_scope.

(** ** Go integers *)

(** [int] and [int64] on the 64-bit platforms the service is built for. *)
Definition maxInt : Z := 2 ^ 63 - 1.
Definition minInt : Z := - 2 ^ 63.

Definition wrap_int (z : Z) : Z := (z + 2 ^ 63) mod 2 ^ 64 - 2 ^ 63.

Definition fits_int (z : Z) : Prop := minInt <= z <= maxInt.

(** ** strconv *)

Variant NumError := ErrSyntax | ErrRange.

Definition digit_val (c : ascii) : option Z :=
  let n := Z.of_nat (nat_of_ascii c) in
  if (48 <=? n) && (n <=? 57) then Some (n - 48) else None.

Fixpoint parse_digits (s : string) (acc : Z) : option Z :=
  match s with
  | EmptyString => Some acc
  | String c s' =>
      match digit_val c with
      | Some d => parse_digits s' (acc * 10 + d)
      | None => None
      end
  end.

(** [strconv.Atoi]: an optional sign, then one or more decimal digits and
    nothing else; a value outside [int] is a range error carrying the
    nearest bound. *)
Definition Atoi (s : string) : Z * option NumError :=
  match s with
  | EmptyString => (0, Some ErrSyntax)
  | String c rest =>
      let '(neg, digits) :=
        if Ascii.eqb c "-"%char then (true, rest)
        else if Ascii.eqb c "+"%char then (false, rest)
        else (false, s) in
      match digits with
      | EmptyString => (0, Some ErrSyntax)
      | _ =>
          match parse_digits digits 0 with
          | None => (0, Some ErrSyntax)
          | Some n =>
              let v := if neg : bool then - n else n in
              if v <? minInt then (minInt, Some ErrRange)
              else if maxInt <? v then (maxInt, Some ErrRange)
              else (v, None)
          end
      end
  end.

(** [strconv.Itoa]: the decimal text of an [int]. *)
Definition Itoa (i : Z) : string := NilEmpty.string_of_int (Z.to_int i).

(** ** float64 and time *)

Abbreviation float64 := PrimFloat.float.

(** [float64(i)] for an integer [i]: the nearest binary64. *)
Definition float64_of_int (i : Z) : float64 :=
  SF2Prim (binary_normalize prec emax i 0 false).

(** [time.Time] as nanoseconds since the epoch, [time.Duration] as an
    [int64] count of nanoseconds. *)
Definition Time := Z.
Definition Duration := Z.

Definition Second : Duration := 1000000000.

(** [Time.Sub]: the difference, saturated to the range of [Duration]. *)
Definition time_Sub (t u : Time) : Duration :=
  let d := t - u in
  if d <? minInt then minInt else if maxInt <? d then maxInt else d.

(** [Duration.Seconds]: whole seconds plus the fraction, as a float. *)
Definition Seconds (d : Duration) : float64 :=
  PrimFloat.add (float64_of_int (Z.quot d Second))
                (PrimFloat.div (float64_of_int (Z.rem d Second)) 1e9%float).

(** ** The data model (main.go, lines 18-29) *)

Record Transaction := {
  ID : string;
  Value : float64;
  Timestamp : Time;
  Status : string;
  CreatedAt : Time
}.

Record TransactionRequest := {
  reqValue : float64;
  reqTimestamp : Time
}.

(** A Go slice is either nil or backed by an array; [append] to a nil
    slice allocates. *)
Inductive slice (A : Type) : Type :=
| nil_slice
| slice_of (elems : list A).
Arguments nil_slice {A}.
Arguments slice_of {A} elems.

Definition append {A} (s : slice A) (x : A) : slice A :=
  match s with
  | nil_slice => slice_of [x]
  | slice_of l => slice_of (l ++ [x])
  end.

Definition elements_of {A} (s : slice A) : list A :=
  match s with
  | nil_slice => []
  | slice_of l => l
  end.

(** ** encoding/json *)

(** The JSON values the service writes. *)
#[warnings="-register-all"]
Inductive json : Type :=
| JNull
| JString (s : string)
| JNumber (f : float64)
| JTime (t : Time)
| JArray (items : list json)
| JObject (fields : list (string * json)).

(** How encoding/json sees the Go values: struct fields under their tags
    in declaration order, a map with its keys sorted, a slice as an array
    unless it is nil, which is [null]. *)
Definition Transaction_json (t : Transaction) : json :=
  JObject [("id", JString (ID t)); ("value", JNumber (Value t));
           ("timestamp", JTime (Timestamp t)); ("status", JString (Status t));
           ("created_at", JTime (CreatedAt t))].

Definition Transactions_json (s : slice Transaction) : json :=
  match s with
  | nil_slice => JNull
  | slice_of l => JArray (map Transaction_json l)
  end.

(** The codec itself is the library's: the text of a value, and the
    decoding of a request body into a [TransactionRequest] ([None] when
    [Decode] returns an error). *)
Class JSONCodec := {
  Marshal : json -> string;
  DecodeRequest : string -> option TransactionRequest;
  (* [t.Format(time.RFC3339)], the one text the service renders itself *)
  FormatRFC3339 : Time -> string
}.

Definition LF : string := String "010"%char EmptyString.

(** ** database/sql *)

Inductive sql_error :=
| ErrNoRows
| ErrDriver (msg : string).

Definition Error (e : sql_error) : string :=
  match e with
  | ErrNoRows => "sql: no rows in result set"
  | ErrDriver msg => msg
  end.

Inductive result (A : Type) : Type :=
| Ok (a : A)
| Err (e : sql_error).
Arguments Ok {A} a.
Arguments Err {A} e.

Inductive sqlarg :=
| ArgFloat (f : float64)
| ArgTime (t : Time)
| ArgInt (i : Z)
| ArgString (s : string).

(** What the handlers use of a [*sql.DB]: a statement text and its
    arguments go in, the handle changes state, and out comes an error or
    the row(s) scanned into [Transaction]s.  [QueryRow] is
    [db.QueryRow(q, args...).Scan(&txn...)]; [Query] is [db.Query] with one
    [rows.Scan] result per row that [rows.Next] yields.  A result set that
    [rows.Next] cuts short is, to the handlers, a shorter list: they never
    read [rows.Err]. *)
Class SQLDB (DB : Type) := {
  QueryRow : string -> list sqlarg -> DB -> DB * result Transaction;
  Query : string -> list sqlarg -> DB -> DB * result (list (result Transaction));
  Ping : DB -> DB * option sql_error
}.

(** ** net/http *)

Definition StatusOK : Z := 200.
Definition StatusCreated : Z := 201.
Definition StatusBadRequest : Z := 400.
Definition StatusNotFound : Z := 404.
Definition StatusInternalServerError : Z := 500.
Definition StatusServiceUnavailable : Z := 503.

(** [http.ResponseWriter]: [Header().Set], [WriteHeader] and [Write],
    the last returning the byte count and the error, if any. *)
Class http_ResponseWriter (W : Type) := {
  HeaderSet : string -> string -> W -> W;
  WriteHeader : Z -> W -> W;
  Write : string -> W -> W * (Z * option string)
}.

Record Request := {
  Method : string;
  URL_Path : string;
  URL_Query : list (string * string);
  ContentLength : Z;
  Body : string;
  Vars : gmap string string
}.

(** [url.Values.Get]: the first value given for the key, or the empty
    string. *)
Fixpoint Values_Get (q : list (string * string)) (key : string) : string :=
  match q with
  | [] => ""
  | (k, v) :: q' => if String.eqb k key then v else Values_Get q' key
  end.

(** [mux.Vars(r)[key]]: a missing key reads as the empty string. *)
Definition Vars_get (r : Request) (key : string) : string :=
  default "" (Vars r !! key).

(** *** Handlers as programs over a response writer

    A handler's use of its writer is a sequence of calls, each
    continuation seeing what [Write] returned.  [ServeHTTP] runs such a
    program against any writer. *)
Inductive prog (A : Type) : Type :=
| Ret (a : A)
| CallHeaderSet (k v : string) (rest : prog A)
| CallWriteHeader (code : Z) (rest : prog A)
| CallWrite (b : string) (rest : Z * option string -> prog A).
Arguments Ret {A} a.
Arguments CallHeaderSet {A} k v rest.
Arguments CallWriteHeader {A} code rest.
Arguments CallWrite {A} b rest.

Fixpoint bind {A B} (p : prog A) (f : A -> prog B) : prog B :=
  match p with
  | Ret a => f a
  | CallHeaderSet k v rest => CallHeaderSet k v (bind rest f)
  | CallWriteHeader c rest => CallWriteHeader c (bind rest f)
  | CallWrite b rest => CallWrite b (fun r => bind (rest r) f)
  end.

Declare Scope prog_scope.
Delimit Scope prog_scope with prog.
Notation "x <- p ;; q" := (bind p (fun x => q))
  (at level 100, p at next level, right associativity) : prog_scope.
Notation "p ;; q" := (bind p (fun _ => q))
  (at level 100, right associativity) : prog_scope.
Local Open Scope prog_scope.

Definition w_Header_Set (k v : string) : prog unit := CallHeaderSet k v (Ret tt).
Definition w_WriteHeader (code : Z) : prog unit := CallWriteHeader code (Ret tt).
Definition w_Write (b : string) : prog (Z * option string) := CallWrite b Ret.

Fixpoint run {W} `{http_ResponseWriter W} {A} (p : prog A) (w : W) : W * A :=
  match p with
  | Ret a => (w, a)
  | CallHeaderSet k v rest => run rest (HeaderSet k v w)
  | CallWriteHeader c rest => run rest (WriteHeader c w)
  | CallWrite b rest => let '(w', r) := Write b w in run (rest r) w'
  end.

(** The calls a program makes on a given writer, in order. *)
Inductive call :=
| HeaderSetCall (k v : string)
| WriteHeaderCall (code : Z)
| WriteCall (b : string) (n : Z) (err : option string).

Fixpoint calls {W} `{http_ResponseWriter W} {A} (p : prog A) (w : W) : list call :=
  match p with
  | Ret _ => []
  | CallHeaderSet k v rest => HeaderSetCall k v :: calls rest (HeaderSet k v w)
  | CallWriteHeader c rest => WriteHeaderCall c :: calls rest (WriteHeader c w)
  | CallWrite b rest =>
      let '(w', r) := Write b w in
      WriteCall b (fst r) (snd r) :: calls (rest r) w'
  end.

(** [http.Error]: plain-text headers, the status line, then the message
    and a newline. *)
Definition http_Error (error : string) (code : Z) : prog unit :=
  w_Header_Set "Content-Type" "text/plain; charset=utf-8" ;;
  w_Header_Set "X-Content-Type-Options" "nosniff" ;;
  w_WriteHeader code ;;
  w_Write (error +:+ LF) ;;
  Ret tt.

(** [json.NewEncoder(w).Encode(v)]: one [Write] of the text and a
    newline; the handlers drop the error it returns. *)
Definition json_Encode `{JSONCodec} (v : json) : prog unit :=
  w_Write (Marshal v +:+ LF) ;;
  Ret tt.

(** ** prometheus/client_golang *)

Record Opts := {
  Name : string;
  Help : string
}.

Record HistogramOpts := {
  hName : string;
  hHelp : string;
  Buckets : list float64
}.

(** A vector holds one child per tuple of label values; a child that was
    never touched reads as zero (no observation). *)
Record CounterVec := {
  cv_opts : Opts;
  cv_labels : list string;
  cv_children : gmap (list string) nat
}.

Record HistogramVec := {
  hv_opts : HistogramOpts;
  hv_labels : list string;
  hv_children : gmap (list string) (list float64)
}.

Record Counter := {
  c_opts : Opts;
  c_value : nat
}.

Record Gauge := {
  g_opts : Opts;
  g_value : float64
}.

Definition NewCounterVec (o : Opts) (labels : list string) : CounterVec :=
  {| cv_opts := o; cv_labels := labels; cv_children := ∅ |}.

Definition NewHistogramVec (o : HistogramOpts) (labels : list string) : HistogramVec :=
  {| hv_opts := o; hv_labels := labels; hv_children := ∅ |}.

Definition NewCounter (o : Opts) : Counter := {| c_opts := o; c_value := 0 |}.

Definition NewGauge (o : Opts) : Gauge := {| g_opts := o; g_value := 0%float |}.

(** The value of [cv.WithLabelValues(lvs...)]. *)
Definition count_of (cv : CounterVec) (lvs : list string) : nat :=
  default 0%nat (cv_children cv !! lvs).

(** The observations of [hv.WithLabelValues(lvs...)], latest first. *)
Definition observations_of (hv : HistogramVec) (lvs : list string) : list float64 :=
  default [] (hv_children hv !! lvs).

(** [cv.WithLabelValues(lvs...).Inc()] *)
Definition CounterVec_Inc (lvs : list string) (cv : CounterVec) : CounterVec :=
  {| cv_opts := cv_opts cv; cv_labels := cv_labels cv;
     cv_children := <[lvs := S (count_of cv lvs)]> (cv_children cv) |}.

(** [hv.WithLabelValues(lvs...).Observe(v)] *)
Definition HistogramVec_Observe (lvs : list string) (v : float64) (hv : HistogramVec)
  : HistogramVec :=
  {| hv_opts := hv_opts hv; hv_labels := hv_labels hv;
     hv_children := <[lvs := v :: observations_of hv lvs]> (hv_children hv) |}.

Definition Counter_Inc (c : Counter) : Counter :=
  {| c_opts := c_opts c; c_value := S (c_value c) |}.

Definition Gauge_Add (v : float64) (g : Gauge) : Gauge :=
  {| g_opts := g_opts g; g_value := PrimFloat.add (g_value g) v |}.

(** [prometheus.ExponentialBuckets(start, factor, count)]: [count]
    bounds, the first [start], each next one the previous times
    [factor]. *)
Fixpoint ExponentialBuckets (start factor : float64) (count : nat) : list float64 :=
  match count with
  | O => []
  | S n => start :: ExponentialBuckets (PrimFloat.mul start factor) factor n
  end.

(** [prometheus.DefBuckets], which a histogram takes when its options
    name no buckets. *)
#[warnings="-inexact-float"]
Definition DefBuckets : list float64 :=
  [0.005; 0.01; 0.025; 0.05; 0.1; 0.25; 0.5; 1; 2.5; 5; 10]%float.

Definition bucket_bounds (hv : HistogramVec) : list float64 :=
  match Buckets (hv_opts hv) with
  | [] => DefBuckets
  | b => b
  end.

(** ** The application (main.go, lines 31-40)

    The struct's fields, and after them the process state the methods
    reach without a field: the standard logger's output and the wall
    clock, read as the [reads]-th value of [wall]. *)
Record App (DB : Type) := {
  db : DB;
  httpDuration : HistogramVec;
  httpRequests : CounterVec;
  txnCounter : CounterVec;
  txnValueSum : Gauge;
  txnErrorCounter : Counter;
  httpRequestSize : HistogramVec;
  httpResponseSize : HistogramVec;
  stdlog : list string;
  wall : nat -> Time;
  reads : nat
}.
Arguments db {DB} _.
Arguments httpDuration {DB} _.
Arguments httpRequests {DB} _.
Arguments txnCounter {DB} _.
Arguments txnValueSum {DB} _.
Arguments txnErrorCounter {DB} _.
Arguments httpRequestSize {DB} _.
Arguments httpResponseSize {DB} _.
Arguments stdlog {DB} _.
Arguments wall {DB} _.
Arguments reads {DB} _.

(** The decorating writer (main.go, lines 230-234). *)
Record responseWriter (W : Type) := {
  ResponseWriter : W;
  statusCode : Z;
  size : Z
}.
Arguments ResponseWriter {W} _.
Arguments statusCode {W} _.
Arguments size {W} _.

Section Service.

Context `{JSONCodec} {DB : Type} `{SQLDB DB}.

Definition with_db (d : DB) (a : App DB) : App DB :=
  {| db := d; httpDuration := httpDuration a; httpRequests := httpRequests a;
     txnCounter := txnCounter a; txnValueSum := txnValueSum a;
     txnErrorCounter := txnErrorCounter a; httpRequestSize := httpRequestSize a;
     httpResponseSize := httpResponseSize a; stdlog := stdlog a;
     wall := wall a; reads := reads a |}.

Definition with_httpDuration (m : HistogramVec) (a : App DB) : App DB :=
  {| db := db a; httpDuration := m; httpRequests := httpRequests a;
     txnCounter := txnCounter a; txnValueSum := txnValueSum a;
     txnErrorCounter := txnErrorCounter a; httpRequestSize := httpRequestSize a;
     httpResponseSize := httpResponseSize a; stdlog := stdlog a;
     wall := wall a; reads := reads a |}.

Definition with_httpRequests (m : CounterVec) (a : App DB) : App DB :=
  {| db := db a; httpDuration := httpDuration a; httpRequests := m;
     txnCounter := txnCounter a; txnValueSum := txnValueSum a;
     txnErrorCounter := txnErrorCounter a; httpRequestSize := httpRequestSize a;
     httpResponseSize := httpResponseSize a; stdlog := stdlog a;
     wall := wall a; reads := reads a |}.

Definition with_txnCounter (m : CounterVec) (a : App DB) : App DB :=
  {| db := db a; httpDuration := httpDuration a; httpRequests := httpRequests a;
     txnCounter := m; txnValueSum := txnValueSum a;
     txnErrorCounter := txnErrorCounter a; httpRequestSize := httpRequestSize a;
     httpResponseSize := httpResponseSize a; stdlog := stdlog a;
     wall := wall a; reads := reads a |}.

Definition with_txnValueSum (m : Gauge) (a : App DB) : App DB :=
  {| db := db a; httpDuration := httpDuration a; httpRequests := httpRequests a;
     txnCounter := txnCounter a; txnValueSum := m;
     txnErrorCounter := txnErrorCounter a; httpRequestSize := httpRequestSize a;
     httpResponseSize := httpResponseSize a; stdlog := stdlog a;
     wall := wall a; reads := reads a |}.

Definition with_txnErrorCounter (m : Counter) (a : App DB) : App DB :=
  {| db := db a; httpDuration := httpDuration a; httpRequests := httpRequests a;
     txnCounter := txnCounter a; txnValueSum := txnValueSum a;
     txnErrorCounter := m; httpRequestSize := httpRequestSize a;
     httpResponseSize := httpResponseSize a; stdlog := stdlog a;
     wall := wall a; reads := reads a |}.

Definition with_httpRequestSize (m : HistogramVec) (a : App DB) : App DB :=
  {| db := db a; httpDuration := httpDuration a; httpRequests := httpRequests a;
     txnCounter := txnCounter a; txnValueSum := txnValueSum a;
     txnErrorCounter := txnErrorCounter a; httpRequestSize := m;
     httpResponseSize := httpResponseSize a; stdlog := stdlog a;
     wall := wall a; reads := reads a |}.

Definition with_httpResponseSize (m : HistogramVec) (a : App DB) : App DB :=
  {| db := db a; httpDuration := httpDuration a; httpRequests := httpRequests a;
     txnCounter := txnCounter a; txnValueSum := txnValueSum a;
     txnErrorCounter := txnErrorCounter a; httpRequestSize := httpRequestSize a;
     httpResponseSize := m; stdlog := stdlog a;
     wall := wall a; reads := reads a |}.

(** [log.Printf]: one more line on the standard logger. *)
Definition log_Printf (line : string) (a : App DB) : App DB :=
  {| db := db a; httpDuration := httpDuration a; httpRequests := httpRequests a;
     txnCounter := txnCounter a; txnValueSum := txnValueSum a;
     txnErrorCounter := txnErrorCounter a; httpRequestSize := httpRequestSize a;
     httpResponseSize := httpResponseSize a; stdlog := stdlog a ++ [line];
     wall := wall a; reads := reads a |}.

(** [time.Now()]: the next reading of the wall clock. *)
Definition time_Now (a : App DB) : Time * App DB :=
  (wall a (reads a),
   {| db := db a; httpDuration := httpDuration a; httpRequests := httpRequests a;
      txnCounter := txnCounter a; txnValueSum := txnValueSum a;
      txnErrorCounter := txnErrorCounter a; httpRequestSize := httpRequestSize a;
      httpResponseSize := httpResponseSize a; stdlog := stdlog a;
      wall := wall a; reads := S (reads a) |}).

(** [time.Since(start)] is [time.Now().Sub(start)]. *)
Definition time_Since (start : Time) (a : App DB) : Duration * App DB :=
  let '(now, a) := time_Now a in (time_Sub now start, a).

(** *** initMetrics (main.go, lines 49-101; the registration calls that
    follow hand the instruments to the default registry and change none
    of them) *)
Definition initMetrics (a : App DB) : App DB :=
  let a := with_httpDuration
    (NewHistogramVec
       {| hName := "http_request_duration_seconds";
          hHelp := "Duration of HTTP requests";
          Buckets := [] |}
       ["path"; "method"; "status_code"]) a in
  let a := with_httpRequests
    (NewCounterVec
       {| Name := "http_requests_total";
          Help := "Total number of HTTP requests" |}
       ["path"; "method"; "status_code"]) a in
  let a := with_txnCounter
    (NewCounterVec
       {| Name := "transactions_total";
          Help := "Total number of transactions" |}
       ["status"]) a in
  let a := with_txnValueSum
    (NewGauge
       {| Name := "transactions_value_sum";
          Help := "Sum of all transaction values processed." |}) a in
  let a := with_txnErrorCounter
    (NewCounter
       {| Name := "transactions_errors_total";
          Help := "Number of failed transaction creations." |}) a in
  let a := with_httpRequestSize
    (NewHistogramVec
       {| hName := "http_request_size_bytes";
          hHelp := "Size of HTTP requests";
          Buckets := ExponentialBuckets 100 10 5 |}
       ["path"; "method"]) a in
  let a := with_httpResponseSize
    (NewHistogramVec
       {| hName := "http_response_size_bytes";
          hHelp := "Size of HTTP responses";
          Buckets := ExponentialBuckets 100 10 5 |}
       ["path"; "method"; "status_code"]) a in
  a.

(** The histogram instruments of the application. *)
Definition histograms (a : App DB) : list HistogramVec :=
  [httpDuration a; httpRequestSize a; httpResponseSize a].

(** *** The decorating writer's methods (main.go, lines 236-245);
    [Header] is the embedded writer's. *)
Definition responseWriter_WriteHeader {W} `{http_ResponseWriter W}
    (code : Z) (rw : responseWriter W) : responseWriter W :=
  let rw := {| ResponseWriter := ResponseWriter rw; statusCode := code;
               size := size rw |} in
  {| ResponseWriter := WriteHeader code (ResponseWriter rw);
     statusCode := statusCode rw; size := size rw |}.

Definition responseWriter_Write {W} `{http_ResponseWriter W}
    (b : string) (rw : responseWriter W) : responseWriter W * (Z * option string) :=
  let '(w, (n, err)) := Write b (ResponseWriter rw) in
  ({| ResponseWriter := w; statusCode := statusCode rw;
      size := wrap_int (size rw + n) |}, (n, err)).

Definition responseWriter_HeaderSet {W} `{http_ResponseWriter W}
    (k v : string) (rw : responseWriter W) : responseWriter W :=
  {| ResponseWriter := HeaderSet k v (ResponseWriter rw);
     statusCode := statusCode rw; size := size rw |}.

#[export] Instance responseWriter_ResponseWriter {W} `{http_ResponseWriter W}
  : http_ResponseWriter (responseWriter W) :=
  {| HeaderSet := responseWriter_HeaderSet;
     WriteHeader := responseWriter_WriteHeader;
     Write := responseWriter_Write |}.

(** *** Handlers *)

Definition Handler : Type := Request -> App DB -> prog (App DB).

Definition ServeHTTP {W} `{http_ResponseWriter W}
    (h : Handler) (w : W) (r : Request) (a : App DB) : W * App DB :=
  run (h r a) w.

(** The middleware (main.go, lines 209-228), as the handler it returns
    applied to a writer. *)
Definition metricsMiddleware {W} `{http_ResponseWriter W}
    (next : Handler) (w : W) (r : Request) (a : App DB) : W * App DB :=
  let '(start, a) := time_Now a in
  let wrapped := {| ResponseWriter := w; statusCode := 200; size := 0 |} in
  let a :=
    if 0 <? ContentLength r then
      with_httpRequestSize
        (HistogramVec_Observe [URL_Path r; Method r]
           (float64_of_int (ContentLength r)) (httpRequestSize a)) a
    else a in
  let '(wrapped, a) := ServeHTTP next wrapped r a in
  let '(elapsed, a) := time_Since start a in
  let duration := Seconds elapsed in
  let statusCode := Itoa (statusCode wrapped) in
  let a := with_httpDuration
    (HistogramVec_Observe [URL_Path r; Method r; statusCode] duration
       (httpDuration a)) a in
  let a := with_httpRequests
    (CounterVec_Inc [URL_Path r; Method r; statusCode] (httpRequests a)) a in
  let a := with_httpResponseSize
    (HistogramVec_Observe [URL_Path r; Method r; statusCode]
       (float64_of_int (size wrapped)) (httpResponseSize a)) a in
  (ResponseWriter wrapped, a).

(** The state in which the middleware hands the request to [next]
    (lines 211-217): the clock read once, the declared request size
    observed. *)
Definition handler_entry (r : Request) (a : App DB) : App DB :=
  let '(_, a) := time_Now a in
  if 0 <? ContentLength r then
    with_httpRequestSize
      (HistogramVec_Observe [URL_Path r; Method r]
         (float64_of_int (ContentLength r)) (httpRequestSize a)) a
  else a.

(** The writer the middleware hands to [next] (line 213). *)
Definition wrap {W} (w : W) : responseWriter W :=
  {| ResponseWriter := w; statusCode := 200; size := 0 |}.

(** The statements the handlers send, with the layout of the source's
    raw strings reduced to single spaces. *)
Definition insertQuery : string :=
  "INSERT INTO transactions (value, timestamp, status, created_at) VALUES ($1, $2, 'completed', CURRENT_TIMESTAMP) RETURNING id, value, timestamp, status, created_at".

Definition listQuery : string :=
  "SELECT id, value, timestamp, status, created_at FROM transactions ORDER BY created_at DESC LIMIT $1 OFFSET $2".

Definition getQuery : string :=
  "SELECT id, value, timestamp, status, created_at FROM transactions WHERE id = $1".

(** createTransaction (main.go, lines 247-283) *)
Definition createTransaction : Handler := fun r a =>
  match DecodeRequest (Body r) with
  | None =>
      let a := with_txnErrorCounter (Counter_Inc (txnErrorCounter a)) a in
      http_Error "Invalid request body" StatusBadRequest ;;
      Ret a
  | Some req =>
      if PrimFloat.leb (reqValue req) 0 then
        let a := with_txnErrorCounter (Counter_Inc (txnErrorCounter a)) a in
        http_Error "Transaction value must be positive" StatusBadRequest ;;
        Ret a
      else
        let '(d, res) :=
          QueryRow insertQuery
            [ArgFloat (reqValue req); ArgTime (reqTimestamp req)] (db a) in
        let a := with_db d a in
        match res with
        | Err err =>
            let a := log_Printf ("Database error: " +:+ Error err) a in
            let a := with_txnErrorCounter (Counter_Inc (txnErrorCounter a)) a in
            http_Error "Internal server error" StatusInternalServerError ;;
            Ret a
        | Ok txn =>
            let a := with_txnCounter
              (CounterVec_Inc ["completed"] (txnCounter a)) a in
            let a := with_txnValueSum
              (Gauge_Add (reqValue req) (txnValueSum a)) a in
            w_Header_Set "Content-Type" "application/json" ;;
            w_WriteHeader StatusCreated ;;
            json_Encode (Transaction_json txn) ;;
            Ret a
        end
  end.

(** The pagination of listTransactions (main.go, lines 286-299). *)
Definition pagination (r : Request) : Z * Z :=
  let limit := 50 in
  let offset := 0 in
  let l := Values_Get (URL_Query r) "limit" in
  let limit :=
    if negb (String.eqb l "") then
      match Atoi l with
      | (parsed, None) =>
          if (0 <? parsed) && (parsed <=? 100) then parsed else limit
      | (_, Some _) => limit
      end
    else limit in
  let o := Values_Get (URL_Query r) "offset" in
  let offset :=
    if negb (String.eqb o "") then
      match Atoi o with
      | (parsed, None) => if 0 <=? parsed then parsed else offset
      | (_, Some _) => offset
      end
    else offset in
  (limit, offset).

(** The row loop of listTransactions (main.go, lines 315-324): a row
    that fails to scan is logged and skipped. *)
Fixpoint scan_rows (rows : list (result Transaction))
    (transactions : slice Transaction) (a : App DB)
  : slice Transaction * App DB :=
  match rows with
  | [] => (transactions, a)
  | Err err :: rows' =>
      scan_rows rows' transactions
        (log_Printf ("Row scan error: " +:+ Error err) a)
  | Ok txn :: rows' => scan_rows rows' (append transactions txn) a
  end.

(** listTransactions (main.go, lines 285-328) *)
Definition listTransactions : Handler := fun r a =>
  let '(limit, offset) := pagination r in
  let '(d, res) := Query listQuery [ArgInt limit; ArgInt offset] (db a) in
  let a := with_db d a in
  match res with
  | Err err =>
      let a := log_Printf ("Database error: " +:+ Error err) a in
      http_Error "Internal server error" StatusInternalServerError ;;
      Ret a
  | Ok rows =>
      let '(transactions, a) := scan_rows rows nil_slice a in
      w_Header_Set "Content-Type" "application/json" ;;
      json_Encode (Transactions_json transactions) ;;
      Ret a
  end.

(** getTransaction (main.go, lines 330-356) *)
Definition getTransaction : Handler := fun r a =>
  let id := Vars_get r "id" in
  let '(d, res) := QueryRow getQuery [ArgString id] (db a) in
  let a := with_db d a in
  match res with
  | Err ErrNoRows =>
      http_Error "Transaction not found" StatusNotFound ;;
      Ret a
  | Err err =>
      let a := log_Printf ("Database error: " +:+ Error err) a in
      http_Error "Internal server error" StatusInternalServerError ;;
      Ret a
  | Ok txn =>
      w_Header_Set "Content-Type" "application/json" ;;
      json_Encode (Transaction_json txn) ;;
      Ret a
  end.

(** healthCheck (main.go, lines 358-373) *)
Definition healthCheck : Handler := fun r a =>
  let '(d, err) := Ping (db a) in
  let a := with_db d a in
  match err with
  | Some _ =>
      w_WriteHeader StatusServiceUnavailable ;;
      json_Encode (JObject [("error", JString "database connection failed");
                            ("status", JString "unhealthy")]) ;;
      Ret a
  | None =>
      w_Header_Set "Content-Type" "application/json" ;;
      let '(now, a) := time_Now a in
      json_Encode (JObject [("status", JString "healthy");
                            ("time", JString (FormatRFC3339 now))]) ;;
      Ret a
  end.

End Service.

(** ** Instances for the examples

    A recording writer in the manner of net/http/httptest, an in-memory
    table behind the [SQLDB] interface, and a codec.  The theorems below
    hold for every instance; these make their hypotheses concrete. *)

(** *** httptest.ResponseRecorder: the first [WriteHeader] fixes the
    status and the headers, a [Write] before any [WriteHeader] sends 200,
    every [Write] takes all its bytes. *)
Record ResponseRecorder := {
  Code : Z;
  HeaderMap : gmap string string;
  snapHeader : gmap string string;
  wroteHeader : bool;
  Written : string
}.

Definition NewRecorder : ResponseRecorder :=
  {| Code := 200; HeaderMap := ∅; snapHeader := ∅; wroteHeader := false;
     Written := "" |}.

Definition Recorder_HeaderSet (k v : string) (rw : ResponseRecorder) : ResponseRecorder :=
  {| Code := Code rw; HeaderMap := <[k := v]> (HeaderMap rw);
     snapHeader := snapHeader rw; wroteHeader := wroteHeader rw;
     Written := Written rw |}.

Definition Recorder_WriteHeader (code : Z) (rw : ResponseRecorder) : ResponseRecorder :=
  if wroteHeader rw then rw
  else {| Code := code; HeaderMap := HeaderMap rw; snapHeader := HeaderMap rw;
          wroteHeader := true; Written := Written rw |}.

Definition Recorder_Write (b : string) (rw : ResponseRecorder)
  : ResponseRecorder * (Z * option string) :=
  let rw := Recorder_WriteHeader 200 rw in
  ({| Code := Code rw; HeaderMap := HeaderMap rw; snapHeader := snapHeader rw;
      wroteHeader := wroteHeader rw; Written := Written rw +:+ b |},
   (Z.of_nat (String.length b), None)).

#[export] Instance Recorder_ResponseWriter : http_ResponseWriter ResponseRecorder :=
  {| HeaderSet := Recorder_HeaderSet;
     WriteHeader := Recorder_WriteHeader;
     Write := Recorder_Write |}.

(** *** An in-memory transactions table.  Rows are kept newest first; a
    row that cannot be scanned (a NULL in a column) is kept as its scan
    error.  Every statement is journalled; an unreachable server fails
    every call. *)
Record memDB := {
  table : list (result Transaction);
  nextID : Z;
  serverTime : Time;
  reachable : bool;
  journal : list (string * list sqlarg)
}.

Definition journalled (q : string) (args : list sqlarg) (d : memDB) : memDB :=
  {| table := table d; nextID := nextID d; serverTime := serverTime d;
     reachable := reachable d; journal := journal d ++ [(q, args)] |}.

Definition has_id (id : string) (row : result Transaction) : bool :=
  match row with
  | Ok t => String.eqb (ID t) id
  | Err _ => false
  end.

Definition memDB_QueryRow (q : string) (args : list sqlarg) (d : memDB)
  : memDB * result Transaction :=
  let d := journalled q args d in
  if negb (reachable d) then (d, Err (ErrDriver "dial tcp: connection refused"))
  else if String.eqb q insertQuery then
    match args with
    | [ArgFloat v; ArgTime ts] =>
        let txn := {| ID := Itoa (nextID d); Value := v; Timestamp := ts;
                      Status := "completed"; CreatedAt := serverTime d |} in
        ({| table := Ok txn :: table d; nextID := nextID d + 1;
            serverTime := serverTime d; reachable := reachable d;
            journal := journal d |}, Ok txn)
    | _ => (d, Err (ErrDriver "pq: got wrong arguments"))
    end
  else if String.eqb q getQuery then
    match args with
    | [ArgString id] =>
        match Atoi id with
        | (n, None) =>
            match find (has_id (Itoa n)) (table d) with
            | Some row => (d, row)
            | None => (d, Err ErrNoRows)
            end
        | (_, Some _) =>
            (d, Err (ErrDriver ("pq: invalid input syntax for type integer: " +:+ id)))
        end
    | _ => (d, Err (ErrDriver "pq: got wrong arguments"))
    end
  else (d, Err (ErrDriver "pq: syntax error")).

Definition memDB_Query (q : string) (args : list sqlarg) (d : memDB)
  : memDB * result (list (result Transaction)) :=
  let d := journalled q args d in
  if negb (reachable d) then (d, Err (ErrDriver "dial tcp: connection refused"))
  else if String.eqb q listQuery then
    match args with
    | [ArgInt limit; ArgInt offset] =>
        (d, Ok (firstn (Z.to_nat limit) (skipn (Z.to_nat offset) (table d))))
    | _ => (d, Err (ErrDriver "pq: got wrong arguments"))
    end
  else (d, Err (ErrDriver "pq: syntax error")).

Definition memDB_Ping (d : memDB) : memDB * option sql_error :=
  if reachable d then (d, None)
  else (d, Some (ErrDriver "dial tcp: connection refused")).

#[export] Instance memDB_SQLDB : SQLDB memDB :=
  {| QueryRow := memDB_QueryRow; Query := memDB_Query; Ping := memDB_Ping |}.

(** *** A codec.  [marshal] renders the structure as encoding/json does;
    a number is printed as its exact decimal expansion (the library prints
    the shortest text that reads back), a time as RFC 3339 in UTC; strings
    are quoted as they are (the service's hold nothing to escape).
    Requests are decoded from a table of known bodies. *)
Definition DQ : string := String "034"%char EmptyString.

Definition quoted (s : string) : string := DQ +:+ s +:+ DQ.

Fixpoint strip_zeros (s : string) : string :=
  match s with
  | EmptyString => EmptyString
  | String c s' =>
      match strip_zeros s' with
      | EmptyString => if Ascii.eqb c "0"%char then EmptyString else String c EmptyString
      | t => String c t
      end
  end.

Fixpoint zeros (n : nat) : string :=
  match n with
  | O => EmptyString
  | S n' => String "0"%char (zeros n')
  end.

Definition pad_left (width : nat) (s : string) : string :=
  zeros (width - String.length s) +:+ s.

(** The decimal text of [m * 2^e]. *)
Definition decimal_text (m e : Z) : string :=
  if 0 <=? e then Itoa (m * 2 ^ e)
  else
    let k := Z.to_nat (- e) in
    let ds := pad_left (S k) (Itoa (m * 5 ^ (- e))) in
    let n := (String.length ds - k)%nat in
    match strip_zeros (String.substring n k ds) with
    | EmptyString => String.substring 0 n ds
    | frac => String.substring 0 n ds +:+ "." +:+ frac
    end.

Definition format_float (f : float64) : string :=
  match Prim2SF f with
  | S754_zero _ => "0"
  | S754_finite sgn m e =>
      (if sgn then "-" else "") +:+ decimal_text (Zpos m) e
  | S754_infinity _ | S754_nan => "null"
  end.

(** Year, month and day of a count of days since 1970-01-01. *)
Definition civil_from_days (days : Z) : Z * Z * Z :=
  let z := days + 719468 in
  let era := z / 146097 in
  let doe := z - era * 146097 in
  let yoe := (doe - doe / 1460 + doe / 36524 - doe / 146096) / 365 in
  let doy := doe - (365 * yoe + yoe / 4 - yoe / 100) in
  let mp := (5 * doy + 2) / 153 in
  let d := doy - (153 * mp + 2) / 5 + 1 in
  let m := if mp <? 10 then mp + 3 else mp - 9 in
  let y := yoe + era * 400 + (if m <=? 2 then 1 else 0) in
  (y, m, d).

Definition two_digits (n : Z) : string := pad_left 2 (Itoa n).

Definition format_rfc3339 (t : Time) : string :=
  let secs := t / Second in
  let nanos := t mod Second in
  let '(y, m, d) := civil_from_days (secs / 86400) in
  let sod := secs mod 86400 in
  pad_left 4 (Itoa y) +:+ "-" +:+ two_digits m +:+ "-" +:+ two_digits d +:+ "T"
  +:+ two_digits (sod / 3600) +:+ ":" +:+ two_digits (sod mod 3600 / 60) +:+ ":"
  +:+ two_digits (sod mod 60)
  +:+ match strip_zeros (pad_left 9 (Itoa nanos)) with
      | EmptyString => EmptyString
      | frac => "." +:+ frac
      end
  +:+ "Z".

Fixpoint join (sep : string) (l : list string) : string :=
  match l with
  | [] => EmptyString
  | [x] => x
  | x :: l' => x +:+ sep +:+ join sep l'
  end.

Fixpoint marshal (j : json) : string :=
  match j with
  | JNull => "null"
  | JString s => quoted s
  | JNumber f => format_float f
  | JTime t => quoted (format_rfc3339 t)
  | JArray items => "[" +:+ join "," (map marshal items) +:+ "]"
  | JObject fields =>
      "{" +:+ join "," (map (fun kv => let '(k, v) := kv in
                                       quoted k +:+ ":" +:+ marshal v) fields)
      +:+ "}"
  end.

(** A request body written with ['] for the double quote. *)
Definition body_text (s : string) : string :=
  string_of_list_ascii
    (map (fun c => if Ascii.eqb c "'"%char then "034"%char else c)
       (list_ascii_of_string s)).

(** 2025-08-20T14:30:00Z *)
Definition t_2025_08_20 : Time := 1755700200 * Second.

Definition body_150_75 : string :=
  body_text "{'value':150.75,'timestamp':'2025-08-20T14:30:00Z'}".

Definition body_minus_5 : string :=
  body_text "{'value':-5,'timestamp':'2025-08-20T14:30:00Z'}".

Definition known_bodies : list (string * TransactionRequest) :=
  [(body_150_75, {| reqValue := 150.75; reqTimestamp := t_2025_08_20 |});
   (body_minus_5, {| reqValue := -5; reqTimestamp := t_2025_08_20 |});
   (body_text "{'value':0,'timestamp':'2025-08-20T14:30:00Z'}",
    {| reqValue := 0; reqTimestamp := t_2025_08_20 |})].

Fixpoint decode_known (l : list (string * TransactionRequest)) (body : string)
  : option TransactionRequest :=
  match l with
  | [] => None
  | (b, req) :: l' => if String.eqb b body then Some req else decode_known l' body
  end.

#[export] Instance tableCodec : JSONCodec :=
  {| Marshal := marshal;
     DecodeRequest := decode_known known_bodies;
     FormatRFC3339 := format_rfc3339 |}.

(** ** Reading a handler's calls

    What a client of net/http receives is fixed by the calls made on the
    writer: the status is that of the first [WriteHeader], or 200 when a
    [Write] (or the handler's return) comes first; the body is what the
    [Write]s carried. *)
Fixpoint response_status (cs : list call) : Z :=
  match cs with
  | [] => StatusOK
  | HeaderSetCall _ _ :: cs' => response_status cs'
  | WriteHeaderCall code :: _ => code
  | WriteCall _ _ _ :: _ => StatusOK
  end.

Fixpoint response_body (cs : list call) : string :=
  match cs with
  | [] => EmptyString
  | WriteCall b _ _ :: cs' => b +:+ response_body cs'
  | _ :: cs' => response_body cs'
  end.

Definition is_WriteHeader (c : call) : bool :=
  match c with
  | WriteHeaderCall _ => true
  | _ => false
  end.

(** The code of the first, and of the last, [WriteHeader] among the
    calls; [d] when there is none. *)
Fixpoint first_status (cs : list call) (d : Z) : Z :=
  match cs with
  | [] => d
  | WriteHeaderCall code :: _ => code
  | _ :: cs' => first_status cs' d
  end.

Fixpoint last_status (cs : list call) (d : Z) : Z :=
  match cs with
  | [] => d
  | WriteHeaderCall code :: cs' => last_status cs' code
  | _ :: cs' => last_status cs' d
  end.

(** The sum of the counts the [Write]s returned. *)
Fixpoint bytes_written (cs : list call) : Z :=
  match cs with
  | [] => 0
  | WriteCall _ n _ :: cs' => n + bytes_written cs'
  | _ :: cs' => bytes_written cs'
  end.

(** The rows of a result set that scan. *)
Fixpoint decodable (rows : list (result Transaction)) : list Transaction :=
  match rows with
  | [] => []
  | Ok t :: rows' => t :: decodable rows'
  | Err _ :: rows' => decodable rows'
  end.

(** ** A running service for the examples: [main]'s [&App{}] after
    [initMetrics], over a given database handle, with a clock that
    advances 1.5 ms between readings. *)
Definition emptyVec : HistogramVec :=
  NewHistogramVec {| hName := ""; hHelp := ""; Buckets := [] |} [].

Definition startApp (d : memDB) : App memDB :=
  initMetrics
    {| db := d;
       httpDuration := emptyVec;
       httpRequests := NewCounterVec {| Name := ""; Help := "" |} [];
       txnCounter := NewCounterVec {| Name := ""; Help := "" |} [];
       txnValueSum := NewGauge {| Name := ""; Help := "" |};
       txnErrorCounter := NewCounter {| Name := ""; Help := "" |};
       httpRequestSize := emptyVec;
       httpResponseSize := emptyVec;
       stdlog := [];
       wall := fun n => t_2025_08_20 + Z.of_nat n * 1500000;
       reads := 0 |}.

Definition emptyDB : memDB :=
  {| table := []; nextID := 1; serverTime := t_2025_08_20; reachable := true;
     journal := [] |}.

Definition downDB : memDB :=
  {| table := []; nextID := 1; serverTime := t_2025_08_20; reachable := false;
     journal := [] |}.

(** A table whose only row has a NULL status, so that it does not scan. *)
Definition nullRowDB : memDB :=
  {| table := [Err (ErrDriver "sql: Scan error on column index 3, name status: converting NULL to string is unsupported")];
     nextID := 2; serverTime := t_2025_08_20; reachable := true; journal := [] |}.

Definition postTransaction (body : string) : Request :=
  {| Method := "POST"; URL_Path := "/transactions"; URL_Query := [];
     ContentLength := Z.of_nat (String.length body); Body := body; Vars := ∅ |}.

Definition getTransactions (query : list (string * string)) : Request :=
  {| Method := "GET"; URL_Path := "/transactions"; URL_Query := query;
     ContentLength := 0; Body := ""; Vars := ∅ |}.

Definition getTransactionByID (id : string) : Request :=
  {| Method := "GET"; URL_Path := "/transactions/" +:+ id; URL_Query := [];
     ContentLength := 0; Body := ""; Vars := {[ "id" := id ]} |}.

Definition getHealth : Request :=
  {| Method := "GET"; URL_Path := "/health"; URL_Query := [];
     ContentLength := 0; Body := ""; Vars := ∅ |}.

(** ** Vocabulary of the specification *)

Variant endpoint := Create | List | Get.

(** The effective page size the specification describes: the parsed
    parameter when it is an integer in (0, 100], else 50. *)
Inductive effective_limit (l : string) : Z -> Prop :=
| limit_parsed (n : Z) :
    Atoi l = (n, None) -> 0 < n <= 100 -> effective_limit l n
| limit_default :
    (forall n, Atoi l = (n, None) -> ~ 0 < n <= 100) -> effective_limit l 50.

(** The effective offset: the parsed parameter when it is an integer
    that is not negative, else 0. *)
Inductive effective_offset (o : string) : Z -> Prop :=
| offset_parsed (n : Z) :
    Atoi o = (n, None) -> 0 <= n -> effective_offset o n
| offset_default :
    (forall n, Atoi o = (n, None) -> ~ 0 <= n) -> effective_offset o 0.

(** The same request with [limit=v] put first in its query. *)
Definition with_limit (v : string) (r : Request) : Request :=
  {| Method := Method r; URL_Path := URL_Path r;
     URL_Query := ("limit", v) :: URL_Query r;
     ContentLength := ContentLength r; Body := Body r; Vars := Vars r |}.

Section Vocabulary.

Context `{JSONCodec} {DB : Type} `{SQLDB DB}.

Definition handler_of (e : endpoint) : Handler :=
  match e with
  | Create => createTransaction
  | List => listTransactions
  | Get => getTransaction
  end.

(** A store failure met while serving a request: the statement the
    handler sends comes back with an error.  For Create the request must
    get as far as the store; for Get, [sql.ErrNoRows] is the store's
    answer that the row is absent, not a failure. *)
Inductive store_fails : endpoint -> Request -> App DB -> sql_error -> Prop :=
| create_store_fails r a req d e :
    DecodeRequest (Body r) = Some req ->
    PrimFloat.leb (reqValue req) 0 = false ->
    QueryRow insertQuery [ArgFloat (reqValue req); ArgTime (reqTimestamp req)]
      (db a) = (d, Err e) ->
    store_fails Create r a e
| list_store_fails r a d e :
    Query listQuery [ArgInt (fst (pagination r)); ArgInt (snd (pagination r))]
      (db a) = (d, Err e) ->
    store_fails List r a e
| get_store_fails r a d msg :
    QueryRow getQuery [ArgString (Vars_get r "id")] (db a)
    = (d, Err (ErrDriver msg)) ->
    store_fails Get r a (ErrDriver msg).

(** The instruments the handlers report business outcomes into. *)
Definition business_counters (a : App DB) : CounterVec * Gauge * Counter :=
  (txnCounter a, txnValueSum a, txnErrorCounter a).

(** The instruments the middleware records requests into. *)
Definition http_instruments (a : App DB)
  : HistogramVec * CounterVec * HistogramVec * HistogramVec :=
  (httpDuration a, httpRequests a, httpRequestSize a, httpResponseSize a).

End Vocabulary.

(** ** The rest of the program *)

(** The scan errors of a result set, in order. *)
Fixpoint scan_errors (rows : list (result Transaction)) : list sql_error :=
  match rows with
  | [] => []
  | Ok _ :: rows' => scan_errors rows'
  | Err e :: rows' => e :: scan_errors rows'
  end.

(** *** The routes (setupRoutes, main.go, lines 188-198) *)

Variant route :=
| RouteCreate
| RouteList
| RouteGet
| RouteHealth
| RouteMetrics.

(** A path template: fixed segments and named variables. *)
Variant tseg :=
| Lit (s : string)
| Param (name : string).

Record Route := {
  path_template : list tseg;
  route_methods : list string;
  route_target : route
}.

(** The five [HandleFunc]/[Handle] registrations, in order. *)
Definition setupRoutes : list Route :=
  [ {| path_template := [Lit "transactions"]; route_methods := ["POST"];
       route_target := RouteCreate |};
    {| path_template := [Lit "transactions"]; route_methods := ["GET"];
       route_target := RouteList |};
    {| path_template := [Lit "transactions"; Param "id"]; route_methods := ["GET"];
       route_target := RouteGet |};
    {| path_template := [Lit "health"]; route_methods := ["GET"];
       route_target := RouteHealth |};
    {| path_template := [Lit "metrics"]; route_methods := ["GET"];
       route_target := RouteMetrics |} ].

(** *** gorilla/mux *)

(** The pieces of a path between its slashes: ["/a/b"] has the pieces
    [""], ["a"], ["b"]. *)
Fixpoint segments (s : string) : list string :=
  match s with
  | EmptyString => [EmptyString]
  | String c s' =>
      if Ascii.eqb c "/"%char then EmptyString :: segments s'
      else match segments s' with
           | [] => [String c EmptyString]
           | seg :: rest => String c seg :: rest
           end
  end.

(** [path.Clean] on the pieces of a rooted path: empty pieces and [.]
    go, [..] takes the piece before it with it. *)
Fixpoint clean_segments (segs stack : list string) : list string :=
  match segs with
  | [] => rev stack
  | s :: segs' =>
      if String.eqb s "" || String.eqb s "." then clean_segments segs' stack
      else if String.eqb s ".." then clean_segments segs' (tl stack)
      else clean_segments segs' (s :: stack)
  end.

Definition path_Clean (p : string) : string :=
  "/" +:+ join "/" (clean_segments (segments p) []).

Fixpoint ends_with_slash (s : string) : bool :=
  match s with
  | EmptyString => false
  | String c EmptyString => Ascii.eqb c "/"%char
  | String _ s' => ends_with_slash s'
  end.

(** mux's [cleanPath]: the path rooted and cleaned, its trailing slash
    kept. *)
Definition cleanPath (p : string) : string :=
  match p with
  | EmptyString => "/"
  | String c _ =>
      let p := if Ascii.eqb c "/"%char then p else "/" +:+ p in
      let np := path_Clean p in
      if ends_with_slash p && negb (String.eqb np "/") then np +:+ "/" else np
  end.

(** A template against the pieces of a path; a variable takes one piece
    that is not empty. *)
Fixpoint match_template (t : list tseg) (segs : list string)
    (vars : gmap string string) : option (gmap string string) :=
  match t, segs with
  | [], [] => Some vars
  | Lit s :: t', x :: segs' =>
      if String.eqb s x then match_template t' segs' vars else None
  | Param name :: t', x :: segs' =>
      if String.eqb x "" then None
      else match_template t' segs' (<[name := x]> vars)
  | _, _ => None
  end.

Variant match_result :=
| Matched (rt : route) (vars : gmap string string)
| MethodMismatch
| NoMatch.

(** [Router.Match]: the first route whose path and method both match;
    failing that, a method mismatch when some route matched the path. *)
Fixpoint Router_Match (routes : list Route) (method : string)
    (segs : list string) (mismatch : bool) : match_result :=
  match routes with
  | [] => if mismatch then MethodMismatch else NoMatch
  | rt :: rest =>
      match match_template (path_template rt) segs ∅ with
      | None => Router_Match rest method segs mismatch
      | Some vars =>
          if existsb (String.eqb method) (route_methods rt)
          then Matched (route_target rt) vars
          else Router_Match rest method segs true
      end
  end.

(** The pieces after the leading slash. *)
Definition path_segments (p : string) : list string :=
  match segments p with
  | _ :: rest => rest
  | [] => []
  end.

Definition with_Vars (vars : gmap string string) (r : Request) : Request :=
  {| Method := Method r; URL_Path := URL_Path r; URL_Query := URL_Query r;
     ContentLength := ContentLength r; Body := Body r; Vars := vars |}.

Definition StatusMovedPermanently : Z := 301.
Definition StatusMethodNotAllowed : Z := 405.

Section Router.

Context `{JSONCodec} {DB : Type} `{SQLDB DB}.

(** The handler behind [/metrics] is the metrics library's, and the
    address a redirect names is net/url's rendering of the request's URL
    with the cleaned path. *)
Variable promhttp_Handler : @Handler DB.
Variable redirect_url : Request -> string -> string.

Definition route_handler (rt : route) : Handler :=
  match rt with
  | RouteCreate => createTransaction
  | RouteList => listTransactions
  | RouteGet => getTransaction
  | RouteHealth => healthCheck
  | RouteMetrics => promhttp_Handler
  end.

(** [Router.ServeHTTP] over the routes of [setupRoutes], with the
    middleware of [r.Use] around every matched handler: a path that is not
    clean is redirected, a request no route takes is answered 405 or 404
    by the router itself. *)
Definition Router_ServeHTTP {W} `{http_ResponseWriter W}
    (w : W) (r : Request) (a : App DB) : W * App DB :=
  let path := URL_Path r in
  let p := cleanPath path in
  if negb (String.eqb p path) then
    (WriteHeader StatusMovedPermanently
       (HeaderSet "Location" (redirect_url r p) w), a)
  else
    match Router_Match setupRoutes (Method r) (path_segments path) false with
    | Matched rt vars =>
        metricsMiddleware (route_handler rt) w (with_Vars vars r) a
    | MethodMismatch => (WriteHeader StatusMethodNotAllowed w, a)
    | NoMatch => (fst (run (http_Error "404 page not found" StatusNotFound) w), a)
    end.

End Router.

(** *** The connection-pool sampler (collectDBStats, main.go, lines
    152-186): the four gauges and one turn of the loop. *)
Record DBStats := {
  MaxOpenConnections : Z;
  OpenConnections : Z;
  InUse : Z;
  Idle : Z
}.

Record dbGauges := {
  dbMaxOpenConns : Gauge;
  dbOpenConns : Gauge;
  dbInUseConns : Gauge;
  dbIdleConns : Gauge
}.

Definition Gauge_Set (v : float64) (g : Gauge) : Gauge :=
  {| g_opts := g_opts g; g_value := v |}.

Definition newDBGauges : dbGauges :=
  {| dbMaxOpenConns := NewGauge
       {| Name := "db_max_open_connections";
          Help := "Maximum number of open connections to the database." |};
     dbOpenConns := NewGauge
       {| Name := "db_open_connections";
          Help := "The number of established connections both in use and idle." |};
     dbInUseConns := NewGauge
       {| Name := "db_in_use_connections";
          Help := "The number of connections currently in use." |};
     dbIdleConns := NewGauge
       {| Name := "db_idle_connections";
          Help := "The number of idle connections." |} |}.

(** One turn of the loop, on what [db.Stats()] returned. *)
Definition sample (stats : DBStats) (g : dbGauges) : dbGauges :=
  {| dbMaxOpenConns := Gauge_Set (float64_of_int (MaxOpenConnections stats))
                         (dbMaxOpenConns g);
     dbOpenConns := Gauge_Set (float64_of_int (OpenConnections stats))
                      (dbOpenConns g);
     dbInUseConns := Gauge_Set (float64_of_int (InUse stats)) (dbInUseConns g);
     dbIdleConns := Gauge_Set (float64_of_int (Idle stats)) (dbIdleConns g) |}.

(** The loop over the readings of as many turns as have run. *)
Definition sampler (readings : list DBStats) (g : dbGauges) : dbGauges :=
  fold_left (fun g stats => sample stats g) readings g.

(** *** Label arity: every child of a vector is keyed by as many values
    as the vector has label names ([WithLabelValues] panics otherwise). *)
Definition arity_ok {V} (labels : list string) (children : gmap (list string) V)
  : Prop :=
  forall lvs, is_Some (children !! lvs) -> length lvs = length labels.

Definition labels_ok {DB} (a : App DB) : Prop :=
  arity_ok (hv_labels (httpDuration a)) (hv_children (httpDuration a))
  /\ arity_ok (cv_labels (httpRequests a)) (cv_children (httpRequests a))
  /\ arity_ok (cv_labels (txnCounter a)) (cv_children (txnCounter a))
  /\ arity_ok (hv_labels (httpRequestSize a)) (hv_children (httpRequestSize a))
  /\ arity_ok (hv_labels (httpResponseSize a)) (hv_children (httpResponseSize a)).

(** The label names [initMetrics] declares. *)
Definition declared_labels {DB} (a : App DB) : Prop :=
  hv_labels (httpDuration a) = ["path"; "method"; "status_code"]
  /\ cv_labels (httpRequests a) = ["path"; "method"; "status_code"]
  /\ cv_labels (txnCounter a) = ["status"]
  /\ hv_labels (httpRequestSize a) = ["path"; "method"]
  /\ hv_labels (httpResponseSize a) = ["path"; "method"; "status_code"].

(** A table with one row. *)
Definition firstTransaction : Transaction :=
  {| ID := "1"; Value := 150.75; Timestamp := t_2025_08_20;
     Status := "completed"; CreatedAt := t_2025_08_20 |}.

Definition oneRowDB : memDB :=
  {| table := [Ok firstTransaction]; nextID := 2; serverTime := t_2025_08_20;
     reachable := true; journal := [] |}.

(** What the middleware records once the handler has returned (main.go,
    lines 222-226), given the status and size the decorating writer
    holds and the seconds elapsed. *)
Definition record_response {DB} (r : Request) (status : Z) (duration : float64)
    (sz : Z) (a : App DB) : App DB :=
  let statusCode := Itoa status in
  let a := with_httpDuration
    (HistogramVec_Observe [URL_Path r; Method r; statusCode] duration
       (httpDuration a)) a in
  let a := with_httpRequests
    (CounterVec_Inc [URL_Path r; Method r; statusCode] (httpRequests a)) a in
  with_httpResponseSize
    (HistogramVec_Observe [URL_Path r; Method r; statusCode]
       (float64_of_int sz) (httpResponseSize a)) a.

(** Calls in the order net/http expects: headers, then at most one
    status line, then the body. *)
Fixpoint orderly (cs : list call) : bool :=
  match cs with
  | [] => true
  | HeaderSetCall _ _ :: cs' => orderly cs'
  | WriteHeaderCall _ :: cs' => negb (existsb is_WriteHeader cs')
  | WriteCall _ _ _ :: cs' => negb (existsb is_WriteHeader cs')
  end.

Fixpoint has_slash (s : string) : bool :=
  match s with
  | EmptyString => false
  | String c s' => Ascii.eqb c "/"%char || has_slash s'
  end.

(** A table with one row that scans and one that does not. *)
Definition mixedDB : memDB :=
  {| table := [Ok firstTransaction;
               Err (ErrDriver "sql: Scan error on column index 3, name status: converting NULL to string is unsupported")];
     nextID := 3; serverTime := t_2025_08_20; reachable := true; journal := [] |}.

Definition deleteTransaction (id : string) : Request :=
  {| Method := "DELETE"; URL_Path := "/transactions/" +:+ id; URL_Query := [];
     ContentLength := 0; Body := ""; Vars := ∅ |}.

Section Serving.

Context `{JSONCodec} {DB : Type} `{SQLDB DB}.

(** Requests served one after another, each on a writer of its own:
    the application as the last one leaves it. *)
Definition serve_all {W} `{http_ResponseWriter W} (w : W)
    (reqs : list (Handler * Request)) (a : App DB) : App DB :=
  fold_left (fun a hr => snd (metricsMiddleware (fst hr) w (snd hr) a)) reqs a.

End Serving.

(** * Properties *)

(** ** Go integers *)

Lemma wrap_int_add (a n : Z) : wrap_int (wrap_int a + n) = wrap_int (a + n).
Proof.
  unfold wrap_int.
  replace ((a + 2 ^ 63) mod 2 ^ 64 - 2 ^ 63 + n + 2 ^ 63)
    with ((a + 2 ^ 63) mod 2 ^ 64 + n) by lia.
  rewrite Zplus_mod_idemp_l. f_equal. f_equal. lia.
Qed.

Lemma wrap_int_idem (a : Z) : wrap_int (wrap_int a) = wrap_int a.
Proof. pose proof (wrap_int_add a 0) as E. rewrite !Z.add_0_r in E. exact E. Qed.

Lemma wrap_int_small (z : Z) : fits_int z -> wrap_int z = z.
Proof.
  unfold fits_int, minInt, maxInt, wrap_int. intros Hz.
  rewrite Z.mod_small; lia.
Qed.

(** ** strconv *)

Lemma string_of_uint_empty (d : Decimal.uint) :
  NilEmpty.string_of_uint d = EmptyString -> d = Decimal.Nil.
Proof. destruct d; cbn; congruence. Qed.

Lemma Itoa_nonempty (i : Z) : Itoa i <> EmptyString.
Proof.
  unfold Itoa. destruct i as [|p|p]; cbn; try discriminate.
  intros E. apply string_of_uint_empty in E.
  exact (DecimalPos.Unsigned.to_uint_nonnil p E).
Qed.

(** ** float64 *)

Lemma float_pos_not_le_zero (v : float64) :
  PrimFloat.ltb 0 v = true -> PrimFloat.leb v 0 = false.
Proof.
  rewrite ltb_spec, leb_spec.
  change (Prim2SF 0) with (S754_zero false).
  destruct (Prim2SF v) as [[]|[]| |[] m e]; cbn; congruence.
Qed.

(** ** Instruments *)

Lemma count_of_Inc (lvs : list string) (cv : CounterVec) :
  count_of (CounterVec_Inc lvs cv) lvs = S (count_of cv lvs).
Proof. unfold count_of at 1. cbn. by rewrite lookup_insert_eq. Qed.

Lemma count_of_Inc_ne (lvs lvs' : list string) (cv : CounterVec) :
  lvs' <> lvs -> count_of (CounterVec_Inc lvs cv) lvs' = count_of cv lvs'.
Proof. intros Hne. unfold count_of at 1. cbn. by rewrite lookup_insert_ne. Qed.

Lemma observations_of_Observe (lvs : list string) (v : float64) (hv : HistogramVec) :
  observations_of (HistogramVec_Observe lvs v hv) lvs = v :: observations_of hv lvs.
Proof. unfold observations_of at 1. cbn. by rewrite lookup_insert_eq. Qed.

Lemma observations_of_Observe_ne (lvs lvs' : list string) (v : float64)
    (hv : HistogramVec) :
  lvs' <> lvs ->
  observations_of (HistogramVec_Observe lvs v hv) lvs' = observations_of hv lvs'.
Proof. intros Hne. unfold observations_of at 1. cbn. by rewrite lookup_insert_ne. Qed.

(** ** The decorating writer *)

Lemma last_status_no_WriteHeader (cs : list call) (d : Z) :
  existsb is_WriteHeader cs = false -> last_status cs d = d.
Proof.
  induction cs as [|c cs IH]; cbn; [reflexivity|].
  destruct c; cbn; intros Hc; try discriminate; auto.
Qed.

Section Writer.

Context {W : Type} `{http_ResponseWriter W}.

(** Running a program on the decorating writer: the embedded writer ends
    as if the program had run on it directly and the program sees the
    same results, while [statusCode] follows the [WriteHeader] calls and
    [size] adds up the counts returned. *)
Lemma responseWriter_run {A} (p : prog A) :
  forall (w : W) (sc sz : Z),
    wrap_int sz = sz ->
    run p {| ResponseWriter := w; statusCode := sc; size := sz |}
    = ({| ResponseWriter := fst (run p w);
          statusCode := last_status (calls p w) sc;
          size := wrap_int (sz + bytes_written (calls p w)) |}, snd (run p w))
    /\ calls p {| ResponseWriter := w; statusCode := sc; size := sz |} = calls p w.
Proof.
  induction p as [a | k v rest IH | code rest IH | b rest IH];
    intros w sc sz Hsz; cbn.
  - rewrite Z.add_0_r, Hsz. split; reflexivity.
  - destruct (IH (HeaderSet k v w) sc sz Hsz) as [IH1 IH2].
    unfold responseWriter_HeaderSet; cbn. rewrite IH1, IH2. split; reflexivity.
  - destruct (IH (WriteHeader code w) code sz Hsz) as [IH1 IH2].
    unfold responseWriter_WriteHeader; cbn. rewrite IH1, IH2. split; reflexivity.
  - unfold responseWriter_Write; cbn.
    destruct (Write b w) as [w' [n err]] eqn:E; cbn.
    destruct (IH (n, err) w' sc (wrap_int (sz + n)) (wrap_int_idem _)) as [IH1 IH2].
    rewrite IH1, IH2. split; [|reflexivity].
    do 2 f_equal. rewrite wrap_int_add. f_equal. lia.
Qed.

Lemma run_wrap {A} (p : prog A) (w : W) :
  run p (wrap w)
  = ({| ResponseWriter := fst (run p w);
        statusCode := last_status (calls p w) 200;
        size := wrap_int (bytes_written (calls p w)) |}, snd (run p w)).
Proof. exact (proj1 (responseWriter_run p w 200 0 eq_refl)). Qed.

Lemma calls_wrap {A} (p : prog A) (w : W) : calls p (wrap w) = calls p w.
Proof. exact (proj2 (responseWriter_run p w 200 0 eq_refl)). Qed.

(** C4, as amended.  On the writer the middleware builds, whatever the
    handler does: every call reaches the embedded writer unchanged and
    the handler gets back what that writer returned (same calls, same
    results, same final state of the embedded writer); [Write] returns the
    embedded writer's result; [size] is the sum of the byte counts
    returned, as an [int]; and [statusCode] is the code of the LAST
    [WriteHeader] call (200 when there was none). *)
Theorem responseWriter_records_last_status {A} (p : prog A) (w : W) :
  let cs := calls p w in
  let rw := fst (run p (wrap w)) in
  calls p (wrap w) = cs
  /\ ResponseWriter rw = fst (run p w)
  /\ snd (run p (wrap w)) = snd (run p w)
  /\ (forall b (rw' : responseWriter W),
        snd (Write b rw') = snd (Write b (ResponseWriter rw')))
  /\ size rw = wrap_int (bytes_written cs)
  /\ (fits_int (bytes_written cs) -> size rw = bytes_written cs)
  /\ statusCode rw = last_status cs 200.
Proof.
  cbn zeta. rewrite run_wrap, calls_wrap. cbn.
  repeat split; try reflexivity.
  - intros b rw'. unfold responseWriter_Write.
    destruct (Write b (ResponseWriter rw')) as [w' [n err]]. reflexivity.
  - apply wrap_int_small.
Qed.

End Writer.

(** C4, as stated, fails: a handler that calls [WriteHeader(404)] and then
    [WriteHeader(500)] leaves 500 in [statusCode], not the first code; the
    recorder underneath kept 404, the status the client gets. *)
Lemma responseWriter_first_status_counterexample :
  let p := (w_WriteHeader 404 ;; w_WriteHeader 500)%prog in
  let rw := fst (run p (wrap NewRecorder)) in
  first_status (calls p (wrap NewRecorder)) 200 = 404
  /\ Code (ResponseWriter rw) = 404
  /\ statusCode rw = 500
  /\ statusCode rw <> first_status (calls p (wrap NewRecorder)) 200.
Proof. cbn. repeat split; try reflexivity. discriminate. Qed.
(** ** Running programs *)

Lemma append_empty_r (s : string) : s +:+ EmptyString = s.
Proof.
  induction s as [|c s IH]; [reflexivity|].
  change (String c (s +:+ EmptyString) = String c s). f_equal. exact IH.
Qed.

Section Programs.

Context {W : Type} `{http_ResponseWriter W}.

Lemma run_bind {A B} (p : prog A) (f : A -> prog B) (w : W) :
  run (bind p f) w = run (f (snd (run p w))) (fst (run p w)).
Proof.
  revert w. induction p as [a | k v rest IH | code rest IH | b rest IH];
    intros w; cbn; auto.
  destruct (Write b w) as [w' res]. apply IH.
Qed.

Lemma calls_bind {A B} (p : prog A) (f : A -> prog B) (w : W) :
  calls (bind p f) w = (calls p w ++ calls (f (snd (run p w))) (fst (run p w)))%list.
Proof.
  revert w. induction p as [a | k v rest IH | code rest IH | b rest IH];
    intros w; cbn; auto.
  - by rewrite IH.
  - by rewrite IH.
  - destruct (Write b w) as [w' res]. cbn. by rewrite IH.
Qed.

(** What [http.Error] comes to, on any writer. *)
Lemma http_Error_status {A} (msg : string) (code : Z) (k : prog A) (w : W) :
  response_status (calls (http_Error msg code ;; k) w) = code.
Proof. reflexivity. Qed.

Lemma http_Error_then_Ret {A} (msg : string) (code : Z) (a : A) (w : W) :
  snd (run (http_Error msg code ;; Ret a) w) = a.
Proof. cbn. by destruct (Write _ _) as [w' res]. Qed.

Lemma http_Error_recorded {A} (msg : string) (code : Z) (a : A) (w : W) :
  statusCode (fst (run (http_Error msg code ;; Ret a) (wrap w))) = code.
Proof. rewrite run_wrap. cbn. by destruct (Write _ _) as [w' [n err]]. Qed.

Lemma json_Encode_then_Ret `{JSONCodec} {A} (v : json) (a : A) (w : W) :
  snd (run (json_Encode v ;; Ret a) w) = a.
Proof. cbn. by destruct (Write _ _) as [w' res]. Qed.

End Programs.

(** ** The middleware *)

Section Middleware.

Context `{JSONCodec} {DB : Type} `{SQLDB DB} {W : Type} `{http_ResponseWriter W}.


End Middleware.

(** ** Creating a transaction *)

Section Create.

Context `{JSONCodec} {DB : Type} `{SQLDB DB} {W : Type} `{http_ResponseWriter W}.

(** C2.  A Create request whose body decodes to a positive value and
    whose insert succeeds: [transactions_total{status=completed}] goes up
    by exactly one (no other child moves), [transactions_value_sum] grows
    by the submitted value ([float64] addition), the error counter is
    untouched, the answer is 201 and its body is the JSON text of the row
    the store returned, with its five fields, and a newline. *)
Theorem createTransaction_success (w : W) (r : Request) (a : App DB)
    (req : TransactionRequest) (d : DB) (txn : Transaction) :
  DecodeRequest (Body r) = Some req ->
  PrimFloat.ltb 0 (reqValue req) = true ->
  QueryRow insertQuery [ArgFloat (reqValue req); ArgTime (reqTimestamp req)] (db a)
  = (d, Ok txn) ->
  let p := createTransaction r a in
  let a' := snd (run p w) in
  count_of (txnCounter a') ["completed"] = S (count_of (txnCounter a) ["completed"])
  /\ (forall l, l <> ["completed"] ->
        count_of (txnCounter a') l = count_of (txnCounter a) l)
  /\ g_value (txnValueSum a') = PrimFloat.add (g_value (txnValueSum a)) (reqValue req)
  /\ txnErrorCounter a' = txnErrorCounter a
  /\ db a' = d
  /\ response_status (calls p w) = StatusCreated
  /\ response_body (calls p w)
     = Marshal (JObject [("id", JString (ID txn)); ("value", JNumber (Value txn));
                         ("timestamp", JTime (Timestamp txn));
                         ("status", JString (Status txn));
                         ("created_at", JTime (CreatedAt txn))]) +:+ LF
  /\ statusCode (fst (run p (wrap w))) = StatusCreated.
Proof.
  intros Hreq Hpos Hins p a'. subst p a'.
  rewrite run_wrap. unfold createTransaction.
  rewrite Hreq, (float_pos_not_le_zero _ Hpos), Hins. cbn.
  destruct (Write _ _) as [w' [n err]]. cbn.
  repeat split.
  - apply count_of_Inc.
  - intros l Hl. by apply count_of_Inc_ne.
  - apply append_empty_r.
Qed.

End Create.

Section CreateRejected.

Context `{JSONCodec} {DB : Type} `{SQLDB DB} {W : Type} `{http_ResponseWriter W}.

(** C3.  A Create request whose body decodes to a value that is zero or
    negative is answered 400; the error counter goes up by exactly one;
    the database handle is left as it was (no statement is sent), and so
    are the other business instruments. *)
Theorem createTransaction_rejects_nonpositive (w : W) (r : Request) (a : App DB)
    (req : TransactionRequest) :
  DecodeRequest (Body r) = Some req ->
  PrimFloat.leb (reqValue req) 0 = true ->
  let p := createTransaction r a in
  let a' := snd (run p w) in
  response_status (calls p w) = StatusBadRequest
  /\ statusCode (fst (run p (wrap w))) = StatusBadRequest
  /\ c_value (txnErrorCounter a') = S (c_value (txnErrorCounter a))
  /\ db a' = db a
  /\ txnCounter a' = txnCounter a
  /\ txnValueSum a' = txnValueSum a.
Proof.
  intros Hreq Hle p a'. subst p a'. unfold createTransaction.
  rewrite Hreq, Hle, http_Error_recorded, http_Error_then_Ret.
  repeat split.
Qed.

End CreateRejected.

Section StoreFailures.

Context `{JSONCodec} {DB : Type} `{SQLDB DB} {W : Type} `{http_ResponseWriter W}.


End StoreFailures.

(** ** Listing *)

Lemma Atoi_empty : Atoi "" = (0, Some ErrSyntax).
Proof. reflexivity. Qed.

Section Pagination.

Context `{JSONCodec} {DB : Type} `{SQLDB DB} {W : Type} `{http_ResponseWriter W}.

(** The row loop appends the rows that scan, in order, and touches
    nothing of the application but the log. *)
Lemma scan_rows_slice (rows : list (result Transaction)) :
  forall (acc : slice Transaction) (a : App DB),
    fst (scan_rows rows acc a)
    = match decodable rows with
      | [] => acc
      | ts => slice_of (elements_of acc ++ ts)%list
      end.
Proof.
  induction rows as [|[t|e] rows IH]; intros acc a; cbn; [reflexivity| |apply IH].
  rewrite IH. destruct acc as [|l]; cbn.
  - by destruct (decodable rows).
  - destruct (decodable rows); [reflexivity|]. by rewrite <- app_assoc.
Qed.

Lemma scan_rows_frame (rows : list (result Transaction)) :
  forall (acc : slice Transaction) (a : App DB),
    let a' := snd (scan_rows rows acc a) in
    db a' = db a /\ business_counters a' = business_counters a
    /\ http_instruments a' = http_instruments a.
Proof.
  induction rows as [|[t|e] rows IH]; intros acc a; cbn; [by repeat split|apply IH|].
  destruct (IH acc (log_Printf ("Row scan error: " +:+ Error e) a)) as (-> & -> & ->).
  by repeat split.
Qed.

Lemma pagination_limit (r : Request) :
  effective_limit (Values_Get (URL_Query r) "limit") (fst (pagination r)).
Proof.
  unfold pagination. cbn [fst].
  set (l := Values_Get (URL_Query r) "limit").
  destruct (String.eqb_spec l "") as [-> | Hl]; cbn [negb].
  - apply limit_default. intros n Hn. rewrite Atoi_empty in Hn. discriminate.
  - destruct (Atoi l) as [n [e|]] eqn:E.
    + apply limit_default. intros n' Hn'. rewrite E in Hn'. discriminate.
    + destruct ((0 <? n) && (n <=? 100)) eqn:Hr.
      * apply andb_true_iff in Hr as [Hlo Hhi].
        apply (limit_parsed _ n); [exact E | lia].
      * apply limit_default. intros n' Hn'. rewrite E in Hn'.
        injection Hn' as <-.
        apply andb_false_iff in Hr as [Hr | Hr]; lia.
Qed.

Lemma pagination_offset (r : Request) :
  effective_offset (Values_Get (URL_Query r) "offset") (snd (pagination r)).
Proof.
  unfold pagination. cbn [snd].
  set (o := Values_Get (URL_Query r) "offset").
  destruct (String.eqb_spec o "") as [-> | Ho]; cbn [negb].
  - apply offset_default. intros n Hn. rewrite Atoi_empty in Hn. discriminate.
  - destruct (Atoi o) as [n [e|]] eqn:E.
    + apply offset_default. intros n' Hn'. rewrite E in Hn'. discriminate.
    + destruct (0 <=? n) eqn:Hr.
      * apply (offset_parsed _ n); [exact E | lia].
      * apply offset_default. intros n' Hn'. rewrite E in Hn'.
        injection Hn' as <-. lia.
Qed.

Lemma pagination_in_range (r : Request) :
  0 < fst (pagination r) <= 100 /\ 0 <= snd (pagination r).
Proof.
  split.
  - destruct (pagination_limit r); lia.
  - destruct (pagination_offset r); lia.
Qed.

Lemma pagination_limit_500 (r : Request) :
  pagination (with_limit "500" r) = pagination (with_limit "50" r).
Proof. reflexivity. Qed.

(** C6.  The page size sent to the store is the parsed [limit] when
    that is an integer in (0, 100] and 50 otherwise, the offset is the
    parsed [offset] when that is an integer that is not negative and 0
    otherwise; [limit=500] is served exactly as [limit=50]; and the
    pagination never produces an error response: the answer is 200 unless
    the store itself fails. *)
Theorem listTransactions_pagination (w : W) (r : Request) (a : App DB) :
  let limit := fst (pagination r) in
  let offset := snd (pagination r) in
  effective_limit (Values_Get (URL_Query r) "limit") limit
  /\ effective_offset (Values_Get (URL_Query r) "offset") offset
  /\ db (snd (run (listTransactions r a) w))
     = fst (Query listQuery [ArgInt limit; ArgInt offset] (db a))
  /\ fst (pagination (with_limit "500" r)) = 50
  /\ listTransactions (with_limit "500" r) a = listTransactions (with_limit "50" r) a
  /\ (response_status (calls (listTransactions r a) w) = StatusOK
      \/ exists e, store_fails List r a e).
Proof.
  cbn zeta. split; [apply pagination_limit|]. split; [apply pagination_offset|].
  split; [|split; [reflexivity|split;[reflexivity|]]].
  - unfold listTransactions. destruct (pagination r) as [limit offset]. cbn [fst snd].
    destruct (Query _ _ _) as [d [rows|e]]; cbn [fst].
    + destruct (scan_rows rows nil_slice (with_db d a)) as [ts a0] eqn:E.
      cbn. destruct (Write _ _) as [w' res]. cbn.
      change a0 with (snd (ts, a0)). rewrite <- E.
      by destruct (scan_rows_frame rows nil_slice (with_db d a)) as [-> _].
    + by rewrite http_Error_then_Ret.
  - unfold listTransactions. 
    destruct (Query listQuery [ArgInt (pagination r).1; ArgInt (pagination r).2] (db a)) as [d [rows|e]] eqn:E.
    + left. destruct (pagination r) as [limit offset]. cbn [fst snd] in E. rewrite E.
      destruct (scan_rows _ _ _). cbn. by destruct (Write _ _) as [w' res].
    + right. exists e. by apply (list_store_fails r a d e).
Qed.

End Pagination.

Section ListBody.

Context `{JSONCodec} {DB : Type} `{SQLDB DB} {W : Type} `{http_ResponseWriter W}.

(** C7, what the code does.  When the store query succeeds the answer
    is 200 and its body is one JSON text: the array of the rows that scan
    when there is at least one, and [null] (the encoding of the nil slice
    the loop never appended to) when there is none.  The specification
    asks for the empty array there. *)
Theorem listTransactions_body (w : W) (r : Request) (a : App DB) (d : DB)
    (rows : list (result Transaction)) :
  Query listQuery [ArgInt (fst (pagination r)); ArgInt (snd (pagination r))] (db a)
  = (d, Ok rows) ->
  let p := listTransactions r a in
  response_status (calls p w) = StatusOK
  /\ statusCode (fst (run p (wrap w))) = StatusOK
  /\ response_body (calls p w)
     = Marshal (match decodable rows with
                | [] => JNull
                | ts => JArray (map Transaction_json ts)
                end) +:+ LF
  /\ JNull <> JArray [].
Proof.
  intros Hq p. subst p. rewrite run_wrap. unfold listTransactions.
  destruct (pagination r) as [limit offset]. cbn [fst snd] in Hq. rewrite Hq.
  destruct (scan_rows rows nil_slice (with_db d a)) as [ts a0] eqn:E.
  assert (Hts : ts = match decodable rows with [] => nil_slice | l => slice_of l end).
  { change ts with (fst (ts, a0)). rewrite <- E, scan_rows_slice. reflexivity. }
  cbn. destruct (Write _ _) as [w' [n err]]. cbn.
  repeat split; [|discriminate].
  rewrite append_empty_r, Hts. by destruct (decodable rows).
Qed.

End ListBody.

(** ** Looking a transaction up *)

Section Lookup.

Context `{JSONCodec} {DB : Type} `{SQLDB DB} {W : Type} `{http_ResponseWriter W}.

Lemma handler_entry_frame (r : Request) (a : App DB) :
  let a1 := handler_entry r a in
  db a1 = db a /\ business_counters a1 = business_counters a
  /\ httpRequests a1 = httpRequests a /\ httpDuration a1 = httpDuration a
  /\ httpResponseSize a1 = httpResponseSize a /\ stdlog a1 = stdlog a.
Proof.
  unfold handler_entry, time_Now. cbn.
  by destruct (0 <? ContentLength r).
Qed.

(** C10.  The identifier from the path goes to the store as it is,
    whatever it is, as the one argument of the lookup statement; the
    answer is decided by what the store returns alone: 200 for a row, 404
    for [sql.ErrNoRows] and for nothing else, 500 for any other error.  No
    identifier is answered 400. *)
Theorem getTransaction_forwards_raw_id (w : W) (r : Request) (a : App DB) :
  let p := getTransaction r a in
  let sent := QueryRow getQuery [ArgString (default "" (Vars r !! "id"))] (db a) in
  db (snd (run p w)) = fst sent
  /\ response_status (calls p w)
     = match snd sent with
       | Ok _ => StatusOK
       | Err ErrNoRows => StatusNotFound
       | Err (ErrDriver _) => StatusInternalServerError
       end
  /\ response_status (calls p w) <> StatusBadRequest.
Proof.
  cbn zeta. unfold getTransaction, Vars_get.
  destruct (QueryRow _ _ _) as [d [txn | [|msg]]]; cbn;
    destruct (Write _ _) as [w' res]; cbn; by repeat split.
Qed.

(** C8, as amended.  When the store answers the lookup with
    [sql.ErrNoRows], the handler answers 404 and changes nothing of the
    application but the database handle: no business instrument moves,
    nothing is logged.  The middleware around it still records the
    request: [http_requests_total] under (path, method, "404") goes up by
    one. *)
Theorem getTransaction_not_found (w : W) (r : Request) (a : App DB) (d : DB) :
  QueryRow getQuery [ArgString (Vars_get r "id")] (db a) = (d, Err ErrNoRows) ->
  let p := getTransaction r a in
  let a' := snd (metricsMiddleware getTransaction w r a) in
  let labels := [URL_Path r; Method r; "404"] in
  response_status (calls p w) = StatusNotFound
  /\ snd (run p w) = with_db d a
  /\ business_counters a' = business_counters a
  /\ stdlog a' = stdlog a
  /\ count_of (httpRequests a') labels = S (count_of (httpRequests a) labels)
  /\ (forall l, l <> labels ->
        count_of (httpRequests a') l = count_of (httpRequests a) l).
Proof.
  intros Hq p a' labels. subst p a' labels.
  split; [|split].
  - unfold getTransaction. by rewrite Hq.
  - unfold getTransaction. by rewrite Hq, http_Error_then_Ret.
  - unfold metricsMiddleware, time_Since, time_Now, ServeHTTP. cbn.
    set (a1 := if 0 <? ContentLength r then _ else _).
    change {| ResponseWriter := w; statusCode := 200; size := 0 |} with (wrap w).
    rewrite run_wrap.
    assert (Ha1 : a1 = handler_entry r a) by reflexivity.
    destruct (handler_entry_frame r a) as (Hdb & Hbc & Hreq & _ & _ & Hlog).
    rewrite <- Ha1 in Hdb, Hbc, Hreq, Hlog.
    unfold getTransaction. rewrite Hdb, Hq.
    rewrite http_Error_then_Ret. cbn.
    destruct (Write _ _) as [w' [n err]]. cbn.
    rewrite <- Hreq.
    repeat split; [exact Hbc | exact Hlog | apply count_of_Inc |].
    intros l Hl. by apply count_of_Inc_ne.
Qed.

(** The health check answers a failed ping with 503, not 500, and
    touches no instrument. *)
Lemma healthCheck_unhealthy (w : W) (r : Request) (a : App DB) (d : DB)
    (e : sql_error) :
  Ping (db a) = (d, Some e) ->
  let p := healthCheck r a in
  response_status (calls p w) = StatusServiceUnavailable
  /\ snd (run p w) = with_db d a.
Proof.
  intros Hp p. subst p. unfold healthCheck. rewrite Hp. cbn.
  by destruct (Write _ _) as [w' res].
Qed.

End Lookup.

(** C8, as stated, fails: a lookup of an absent identifier, served
    through the middleware, is answered 404 and [http_requests_total] for
    its labels goes from 0 to 1. *)
Lemma getTransaction_not_found_counterexample :
  let r := getTransactionByID "999999" in
  let a := startApp emptyDB in
  let labels := ["/transactions/999999"; "GET"; "404"] in
  let served := metricsMiddleware getTransaction NewRecorder r a in
  Code (fst served) = 404
  /\ count_of (httpRequests a) labels = 0%nat
  /\ count_of (httpRequests (snd served)) labels = 1%nat
  /\ httpRequests (snd served) <> httpRequests a.
Proof.
  cbv zeta. split; [|split; [|split]]; try (vm_compute; reflexivity).
  intros E. apply (f_equal (fun cv => count_of cv ["/transactions/999999"; "GET"; "404"])) in E.
  vm_compute in E. discriminate.
Qed.

(** ** The instruments *)

Section Instruments.

Context {DB : Type}.

(** C9, as amended.  The two size histograms have the bounds 100, 1000,
    10000, 100000, 1000000 (start 100, factor 10, 5 buckets);
    [http_request_duration_seconds] names no buckets and so takes the
    library's defaults, which run from 5 ms to 10 s. *)
Theorem initMetrics_buckets (a : App DB) :
  let m := initMetrics a in
  Buckets (hv_opts (httpRequestSize m)) = [100; 1000; 10000; 100000; 1000000]%float
  /\ Buckets (hv_opts (httpResponseSize m)) = [100; 1000; 10000; 100000; 1000000]%float
  /\ bucket_bounds (httpRequestSize m) = [100; 1000; 10000; 100000; 1000000]%float
  /\ bucket_bounds (httpResponseSize m) = [100; 1000; 10000; 100000; 1000000]%float
  /\ Buckets (hv_opts (httpDuration m)) = []
  /\ bucket_bounds (httpDuration m) = DefBuckets.
Proof. cbv zeta. repeat split; vm_compute; reflexivity. Qed.

End Instruments.

(** C9, as stated, fails: not every histogram of the application has
    the bounds 100 .. 1000000; the duration histogram has eleven bounds,
    the defaults. *)
Lemma initMetrics_buckets_counterexample :
  ~ (forall h, In h (histograms (startApp emptyDB)) ->
       bucket_bounds h = [100; 1000; 10000; 100000; 1000000]%float).
Proof.
  intros Hall.
  specialize (Hall (httpDuration (startApp emptyDB)) (or_introl eq_refl)).
  apply (f_equal (@length float64)) in Hall. vm_compute in Hall. discriminate.
Qed.

(** ** Cross-checks of the library models *)

Lemma parse_digits_cons (c : ascii) (s : string) (acc : Z) :
  parse_digits (String c s) acc
  = match digit_val c with
    | Some d => parse_digits s (acc * 10 + d)
    | None => None
    end.
Proof. reflexivity. Qed.

Ltac read_digit :=
  rewrite parse_digits_cons;
  match goal with
  | |- context [digit_val ?c] =>
      let v := eval vm_compute in (digit_val c) in
      change (digit_val c) with v
  end;
  cbv iota beta.

Lemma parse_digits_of_uint_acc (d : Decimal.uint) :
  forall acc : positive,
    parse_digits (NilEmpty.string_of_uint d) (Zpos acc)
    = Some (Zpos (Pos.of_uint_acc d acc)).
Proof.
  induction d; intros acc;
    cbn [NilEmpty.string_of_uint Pos.of_uint_acc]; [reflexivity | ..];
    read_digit; rewrite <- IHd; f_equal; lia.
Qed.

Lemma parse_digits_of_uint (d : Decimal.uint) :
  parse_digits (NilEmpty.string_of_uint d) 0 = Some (Z.of_N (Pos.of_uint d)).
Proof.
  induction d; cbn [NilEmpty.string_of_uint Pos.of_uint]; [reflexivity | ..];
    read_digit; [exact IHd | ..];
    cbn [Z.mul Z.add Z.of_N]; apply parse_digits_of_uint_acc.
Qed.

Lemma parse_digits_to_uint (p : positive) :
  parse_digits (NilEmpty.string_of_uint (Pos.to_uint p)) 0 = Some (Zpos p).
Proof.
  rewrite parse_digits_of_uint, DecimalPos.Unsigned.of_to. reflexivity.
Qed.

Lemma string_of_uint_head (d : Decimal.uint) :
  d <> Decimal.Nil ->
  exists c s, NilEmpty.string_of_uint d = String c s
              /\ Ascii.eqb c "-" = false /\ Ascii.eqb c "+" = false.
Proof.
  destruct d; [congruence | ..]; intros _; cbn [NilEmpty.string_of_uint];
    eexists _, _; repeat split.
Qed.

(** [Atoi] reads back what [Itoa] prints, for every [int]. *)
Lemma Atoi_Itoa (i : Z) : fits_int i -> Atoi (Itoa i) = (i, None).
Proof.
  unfold fits_int, Itoa. intros Hi.
  destruct i as [|p|p]; [reflexivity | |].
  - cbn [Z.to_int NilEmpty.string_of_int].
    destruct (string_of_uint_head (Pos.to_uint p)
                (DecimalPos.Unsigned.to_uint_nonnil p)) as (c & s & E & Hm & Hp).
    pose proof (parse_digits_to_uint p) as Hd. rewrite E in Hd.
    rewrite E. unfold Atoi. rewrite Hm, Hp, Hd.
    destruct (Z.ltb_spec (Zpos p) minInt); [unfold minInt in *; lia|].
    destruct (Z.ltb_spec maxInt (Zpos p)); [lia | reflexivity].
  - cbn [Z.to_int NilEmpty.string_of_int].
    destruct (string_of_uint_head (Pos.to_uint p)
                (DecimalPos.Unsigned.to_uint_nonnil p)) as (c & s & E & _).
    pose proof (parse_digits_to_uint p) as Hd. rewrite E in Hd.
    rewrite E. unfold Atoi. cbn [Ascii.eqb Bool.eqb]. cbv iota. rewrite Hd.
    change (- Zpos p) with (Zneg p).
    destruct (Z.ltb_spec (Zneg p) minInt); [lia|].
    destruct (Z.ltb_spec maxInt (Zneg p)); [unfold maxInt in *; lia | reflexivity].
Qed.

(** The specification's relations single out one value each. *)
Lemma effective_limit_unique (l : string) (n m : Z) :
  effective_limit l n -> effective_limit l m -> n = m.
Proof.
  intros [n' En Hn | Hn] [m' Em Hm | Hm]; try reflexivity.
  - congruence.
  - destruct (Hm _ En Hn).
  - destruct (Hn _ Em Hm).
Qed.

Lemma effective_offset_unique (o : string) (n m : Z) :
  effective_offset o n -> effective_offset o m -> n = m.
Proof.
  intros [n' En Hn | Hn] [m' Em Hm | Hm]; try reflexivity.
  - congruence.
  - destruct (Hm _ En Hn).
  - destruct (Hn _ Em Hm).
Qed.

(** [response_status] and [response_body] are what the recording writer
    ends up holding. *)
Lemma append_assoc3 (s t u : string) : (s +:+ t) +:+ u = s +:+ (t +:+ u).
Proof.
  induction s as [|c s IH]; [reflexivity|].
  change (String c ((s +:+ t) +:+ u) = String c (s +:+ (t +:+ u))).
  f_equal. exact IH.
Qed.

Lemma Recorder_committed {A} (p : prog A) :
  forall rw : ResponseRecorder,
    wroteHeader rw = true ->
    Code (fst (run p rw)) = Code rw
    /\ Written (fst (run p rw)) = Written rw +:+ response_body (calls p rw).
Proof.
  induction p as [a | k v rest IH | code rest IH | b rest IH]; intros rw Hw; cbn.
  - by rewrite append_empty_r.
  - apply (IH (Recorder_HeaderSet k v rw)). exact Hw.
  - unfold Recorder_WriteHeader. rewrite Hw. by apply IH.
  - unfold Recorder_Write, Recorder_WriteHeader. rewrite Hw. cbn.
    edestruct (IH (Z.of_nat (String.length b), None)) as [-> ->]; [exact Hw|].
    cbn. by rewrite append_assoc3.
Qed.

Lemma Recorder_response {A} (p : prog A) :
  forall rw : ResponseRecorder,
    wroteHeader rw = false -> Code rw = StatusOK ->
    Code (fst (run p rw)) = response_status (calls p rw)
    /\ Written (fst (run p rw)) = Written rw +:+ response_body (calls p rw).
Proof.
  induction p as [a | k v rest IH | code rest IH | b rest IH];
    intros rw Hw Hc; cbn.
  - by rewrite append_empty_r.
  - by apply (IH (Recorder_HeaderSet k v rw)).
  - unfold Recorder_WriteHeader. rewrite Hw.
    by edestruct (Recorder_committed rest) as [-> ->].
  - unfold Recorder_Write, Recorder_WriteHeader. rewrite Hw. cbn.
    edestruct (Recorder_committed (rest (Z.of_nat (String.length b), None)))
      as [-> ->]; [reflexivity|].
    cbn. by rewrite append_assoc3.
Qed.

Section Transparency.

Context {DB : Type} {W : Type} `{http_ResponseWriter W}.

(** The middleware leaves the response alone: the writer ends as if the
    handler had been given it directly. *)
Lemma metricsMiddleware_response (next : @Handler DB) (w : W) (r : Request)
    (a : App DB) :
  fst (metricsMiddleware next w r a) = fst (run (next r (handler_entry r a)) w).
Proof.
  unfold metricsMiddleware, handler_entry, time_Since, time_Now, ServeHTTP. cbn.
  set (a1 := if 0 <? ContentLength r then _ else _).
  change {| ResponseWriter := w; statusCode := 200; size := 0 |} with (wrap w).
  by rewrite run_wrap.
Qed.

End Transparency.

(** ** The theorems at work on the in-memory service *)

(** The specification's scenario: POST of 150.75 on an empty table. *)
Lemma createTransaction_success_witness :
  let r := postTransaction body_150_75 in
  let a := startApp emptyDB in
  let p := createTransaction r a in
  let a' := snd (run p NewRecorder) in
  count_of (txnCounter a') ["completed"] = S (count_of (txnCounter a) ["completed"])
  /\ g_value (txnValueSum a') = PrimFloat.add (g_value (txnValueSum a)) 150.75
  /\ response_status (calls p NewRecorder) = StatusCreated
  /\ statusCode (fst (run p (wrap NewRecorder))) = StatusCreated.
Proof.
  cbv zeta.
  edestruct (createTransaction_success NewRecorder (postTransaction body_150_75)
               (startApp emptyDB)
               {| reqValue := 150.75; reqTimestamp := t_2025_08_20 |})
    as (H1 & _ & H3 & _ & _ & H6 & _ & H8); [reflexivity | reflexivity | reflexivity |].
  split; [exact H1 | split; [exact H3 | split; [exact H6 | exact H8]]].
Defined.

Example createTransaction_success_response :
  let served := metricsMiddleware createTransaction NewRecorder
                  (postTransaction body_150_75) (startApp emptyDB) in
  Code (fst served) = 201
  /\ Written (fst served)
     = marshal (JObject [("id", JString "1"); ("value", JNumber 150.75);
                         ("timestamp", JTime t_2025_08_20);
                         ("status", JString "completed");
                         ("created_at", JTime t_2025_08_20)]) +:+ LF
  /\ count_of (httpRequests (snd served)) ["/transactions"; "POST"; "201"] = 1%nat
  /\ length (observations_of (httpDuration (snd served))
               ["/transactions"; "POST"; "201"]) = 1%nat
  /\ observations_of (httpResponseSize (snd served)) ["/transactions"; "POST"; "201"]
     = [118%float].
Proof. vm_compute. repeat split. Qed.

(** The specification's scenario: POST of -5. *)
Lemma createTransaction_rejects_nonpositive_witness :
  let r := postTransaction body_minus_5 in
  let a := startApp emptyDB in
  let p := createTransaction r a in
  let a' := snd (run p NewRecorder) in
  response_status (calls p NewRecorder) = StatusBadRequest
  /\ c_value (txnErrorCounter a') = S (c_value (txnErrorCounter a))
  /\ db a' = db a.
Proof.
  cbv zeta.
  edestruct (createTransaction_rejects_nonpositive NewRecorder
               (postTransaction body_minus_5) (startApp emptyDB)
               {| reqValue := -5; reqTimestamp := t_2025_08_20 |})
    as (H1 & _ & H3 & H4 & _); [reflexivity | reflexivity |].
  split; [exact H1 | split; [exact H3 | exact H4]].
Defined.

Example createTransaction_rejected_sends_nothing :
  let served := metricsMiddleware createTransaction NewRecorder
                  (postTransaction body_minus_5) (startApp emptyDB) in
  Code (fst served) = 400
  /\ journal (db (snd served)) = []
  /\ table (db (snd served)) = []
  /\ c_value (txnErrorCounter (snd served)) = 1%nat.
Proof. vm_compute. repeat split. Qed.


Example store_failure_on_create :
  let served := metricsMiddleware createTransaction NewRecorder
                  (postTransaction body_150_75) (startApp downDB) in
  Code (fst served) = 500
  /\ c_value (txnErrorCounter (snd served)) = 1%nat
  /\ count_of (txnCounter (snd served)) ["completed"] = 0%nat
  /\ stdlog (snd served) = ["Database error: dial tcp: connection refused"].
Proof. vm_compute. repeat split. Qed.

(** A list request on an empty table. *)
Lemma listTransactions_body_witness :
  let p := listTransactions (getTransactions []) (startApp emptyDB) in
  response_status (calls p NewRecorder) = StatusOK
  /\ response_body (calls p NewRecorder) = Marshal JNull +:+ LF.
Proof.
  cbv zeta.
  edestruct (listTransactions_body NewRecorder (getTransactions [])
               (startApp emptyDB))
    as (H1 & _ & H3 & _); [reflexivity |].
  split; [exact H1 | exact H3].
Defined.

(** The failing inputs of C7: an empty table, and a page whose only row
    does not scan, both answered 200 with the body [null]. *)
Example listTransactions_empty_is_null :
  let empty := metricsMiddleware listTransactions NewRecorder
                 (getTransactions []) (startApp emptyDB) in
  let unreadable := metricsMiddleware listTransactions NewRecorder
                      (getTransactions []) (startApp nullRowDB) in
  Code (fst empty) = 200 /\ Written (fst empty) = "null" +:+ LF
  /\ Code (fst unreadable) = 200 /\ Written (fst unreadable) = "null" +:+ LF
  /\ marshal (JArray []) = "[]".
Proof. vm_compute. repeat split. Qed.

Example listTransactions_limit_examples :
  pagination (getTransactions [("limit", "500")]) = (50, 0)
  /\ pagination (getTransactions [("limit", "50")]) = (50, 0)
  /\ pagination (getTransactions [("limit", "100"); ("offset", "20")]) = (100, 20)
  /\ pagination (getTransactions [("limit", "0"); ("offset", "-1")]) = (50, 0)
  /\ pagination (getTransactions [("limit", "abc"); ("offset", "1e3")]) = (50, 0)
  /\ pagination (getTransactions []) = (50, 0).
Proof. vm_compute. repeat split. Qed.

(** The specification's scenario: GET /transactions/999999 when absent. *)
Lemma getTransaction_not_found_witness :
  let r := getTransactionByID "999999" in
  let a := startApp emptyDB in
  let a' := snd (metricsMiddleware getTransaction NewRecorder r a) in
  response_status (calls (getTransaction r a) NewRecorder) = StatusNotFound
  /\ business_counters a' = business_counters a
  /\ count_of (httpRequests a') [URL_Path r; Method r; "404"]
     = S (count_of (httpRequests a) [URL_Path r; Method r; "404"]).
Proof.
  cbv zeta.
  edestruct (getTransaction_not_found NewRecorder (getTransactionByID "999999")
               (startApp emptyDB))
    as (H1 & _ & H3 & _ & H5 & _); [reflexivity |].
  split; [exact H1 | split; [exact H3 | exact H5]].
Defined.

(** An identifier that is no number: the text goes to the store as it
    is, the store refuses it, the answer is 500. *)
Example getTransaction_non_numeric_id :
  let served := metricsMiddleware getTransaction NewRecorder
                  (getTransactionByID "abc") (startApp emptyDB) in
  Code (fst served) = 500
  /\ journal (db (snd served)) = [(getQuery, [ArgString "abc"])]
  /\ stdlog (snd served)
     = ["Database error: pq: invalid input syntax for type integer: abc"].
Proof. vm_compute. repeat split. Qed.

(** A handler that writes a body and no status, through the middleware:
    the label is 200. *)
Example metricsMiddleware_default_status :
  let served := metricsMiddleware listTransactions NewRecorder
                  (getTransactions []) (startApp emptyDB) in
  existsb is_WriteHeader
    (calls (listTransactions (getTransactions [])
              (handler_entry (getTransactions []) (startApp emptyDB)))
       (wrap NewRecorder)) = false
  /\ count_of (httpRequests (snd served)) ["/transactions"; "GET"; "200"] = 1%nat.
Proof. vm_compute. repeat split. Qed.

Example healthCheck_unreachable :
  let served := metricsMiddleware healthCheck NewRecorder getHealth (startApp downDB) in
  Code (fst served) = 503
  /\ business_counters (snd served) = business_counters (startApp downDB).
Proof. vm_compute. repeat split. Qed.

(** * Further properties of the program *)

(** ** The handlers *)

Section HandlerProperties.

Context `{JSONCodec} {DB : Type} `{SQLDB DB} {W : Type} `{http_ResponseWriter W}.

(** X1.  A Create request whose body does not decode is answered 400
    with the text "Invalid request body"; the error counter goes up by
    one; the store is not called and nothing else of the application
    changes. *)
Theorem createTransaction_malformed_body (w : W) (r : Request) (a : App DB) :
  DecodeRequest (Body r) = None ->
  let p := createTransaction r a in
  let a' := snd (run p w) in
  response_status (calls p w) = StatusBadRequest
  /\ response_body (calls p w) = "Invalid request body" +:+ LF
  /\ c_value (txnErrorCounter a') = S (c_value (txnErrorCounter a))
  /\ db a' = db a
  /\ txnCounter a' = txnCounter a
  /\ txnValueSum a' = txnValueSum a
  /\ http_instruments a' = http_instruments a
  /\ stdlog a' = stdlog a.
Proof.
  intros Hreq p a'. subst p a'. unfold createTransaction.
  rewrite Hreq, http_Error_then_Ret. cbn.
  destruct (Write _ _) as [w' [n err]]. cbn.
  repeat split; try apply append_empty_r.
Qed.

(** X2.  Every Create request, whatever its body and whatever the store
    does, moves exactly one of [transactions_errors_total] and
    [transactions_total{status=completed}] up by one.  It is the second
    exactly when the answer is 201; the answer is otherwise 400 or 500,
    and then neither [transactions_total] nor [transactions_value_sum]
    changes.  A request answered 400 never reaches the store; any other
    sends the insert once, with the value and the timestamp of the body
    as its two arguments. *)
Theorem createTransaction_accounting (w : W) (r : Request) (a : App DB) :
  let p := createTransaction r a in
  let a' := snd (run p w) in
  let status := response_status (calls p w) in
  (c_value (txnErrorCounter a') + count_of (txnCounter a') ["completed"]
   = S (c_value (txnErrorCounter a) + count_of (txnCounter a) ["completed"]))%nat
  /\ (status = StatusCreated /\ txnErrorCounter a' = txnErrorCounter a
      \/ (status = StatusBadRequest \/ status = StatusInternalServerError)
         /\ txnCounter a' = txnCounter a /\ txnValueSum a' = txnValueSum a)
  /\ (status = StatusBadRequest -> db a' = db a)
  /\ (status <> StatusBadRequest ->
      exists req, DecodeRequest (Body r) = Some req
                  /\ db a' = fst (QueryRow insertQuery
                                    [ArgFloat (reqValue req);
                                     ArgTime (reqTimestamp req)] (db a))).
Proof.
  cbn zeta. unfold createTransaction.
  destruct (DecodeRequest (Body r)) as [req|].
  - destruct (PrimFloat.leb (reqValue req) 0).
    + rewrite http_Error_then_Ret, http_Error_status. cbn.
      split; [reflexivity | split; [right; auto | split; [reflexivity | congruence]]].
    + destruct (QueryRow _ _ _) as [d [txn|e]] eqn:Eq.
      * cbn. destruct (Write _ _) as [w' [n err]]. cbn.
        rewrite count_of_Inc.
        split; [lia | split; [left; auto | split; [discriminate|]]].
        intros _. exists req. by rewrite Eq.
      * rewrite http_Error_then_Ret, http_Error_status. cbn.
        split; [reflexivity | split; [right; auto | split; [discriminate|]]].
        intros _. exists req. by rewrite Eq.
  - rewrite http_Error_then_Ret, http_Error_status. cbn.
    split; [reflexivity | split; [right; auto | split; [reflexivity | congruence]]].
Qed.

(** X3.  A lookup the store answers with a row is answered 200: the
    content type is set to JSON, then the body is the JSON text of that
    row and a newline.  Nothing of the application changes but the
    database handle; nothing is logged. *)
Theorem getTransaction_found (w : W) (r : Request) (a : App DB) (d : DB)
    (txn : Transaction) :
  QueryRow getQuery [ArgString (Vars_get r "id")] (db a) = (d, Ok txn) ->
  let p := getTransaction r a in
  response_status (calls p w) = StatusOK
  /\ statusCode (fst (run p (wrap w))) = StatusOK
  /\ response_body (calls p w) = Marshal (Transaction_json txn) +:+ LF
  /\ hd_error (calls p w) = Some (HeaderSetCall "Content-Type" "application/json")
  /\ snd (run p w) = with_db d a.
Proof.
  intros Hq p. subst p. rewrite run_wrap. unfold getTransaction. rewrite Hq. cbn.
  destruct (Write _ _) as [w' [n err]]. cbn.
  repeat split; try apply append_empty_r.
Qed.

(** The handlers leave the middleware's instruments alone. *)
Lemma createTransaction_http_instruments (w : W) (r : Request) (a : App DB) :
  http_instruments (snd (run (createTransaction r a) w)) = http_instruments a.
Proof.
  unfold createTransaction.
  destruct (DecodeRequest (Body r)) as [req|];
    [destruct (PrimFloat.leb (reqValue req) 0);
       [|destruct (QueryRow _ _ _) as [d [txn|e]]]|];
    rewrite ?http_Error_then_Ret; try reflexivity.
  cbn. by destruct (Write _ _) as [w' res].
Qed.

Lemma listTransactions_frame (w : W) (r : Request) (a : App DB) :
  let a' := snd (run (listTransactions r a) w) in
  business_counters a' = business_counters a
  /\ http_instruments a' = http_instruments a.
Proof.
  cbn zeta. unfold listTransactions. destruct (pagination r) as [limit offset].
  destruct (Query _ _ _) as [d [rows|e]].
  - destruct (scan_rows rows nil_slice (with_db d a)) as [ts a0] eqn:E.
    cbn. destruct (Write _ _) as [w' res]. cbn.
    change a0 with (snd (ts, a0)). rewrite <- E.
    by destruct (scan_rows_frame rows nil_slice (with_db d a)) as (_ & -> & ->).
  - by rewrite http_Error_then_Ret.
Qed.

Lemma getTransaction_frame (w : W) (r : Request) (a : App DB) :
  let a' := snd (run (getTransaction r a) w) in
  business_counters a' = business_counters a
  /\ http_instruments a' = http_instruments a.
Proof.
  cbn zeta. unfold getTransaction.
  destruct (QueryRow _ _ _) as [d [txn | [|msg]]]; cbn;
    by destruct (Write _ _) as [w' res].
Qed.

Lemma healthCheck_frame (w : W) (r : Request) (a : App DB) :
  let a' := snd (run (healthCheck r a) w) in
  business_counters a' = business_counters a
  /\ http_instruments a' = http_instruments a
  /\ stdlog a' = stdlog a.
Proof.
  cbn zeta. unfold healthCheck.
  destruct (Ping (db a)) as [d [e|]]; cbn; by destruct (Write _ _) as [w' res].
Qed.

(** X4.  The three reading endpoints (List, Get, Health) never change
    an instrument, business or HTTP, whatever the store answers; Create
    never changes an HTTP instrument.  The HTTP instruments are the
    middleware's alone. *)
Theorem handlers_leave_instruments (w : W) (r : Request) (a : App DB) :
  (forall h, In h [listTransactions; getTransaction; healthCheck] ->
     business_counters (snd (run (h r a) w)) = business_counters a)
  /\ (forall h, In h [createTransaction; listTransactions; getTransaction;
                      healthCheck] ->
        http_instruments (snd (run (h r a) w)) = http_instruments a).
Proof.
  split; intros h Hin; cbn in Hin.
  - destruct Hin as [<- | [<- | [<- | []]]].
    + apply listTransactions_frame.
    + apply getTransaction_frame.
    + apply healthCheck_frame.
  - destruct Hin as [<- | [<- | [<- | [<- | []]]]].
    + apply createTransaction_http_instruments.
    + apply listTransactions_frame.
    + apply getTransaction_frame.
    + apply healthCheck_frame.
Qed.

Lemma scan_rows_log (rows : list (result Transaction)) :
  forall (acc : slice Transaction) (a : App DB),
    stdlog (snd (scan_rows rows acc a))
    = (stdlog a
       ++ map (fun e => "Row scan error: " +:+ Error e) (scan_errors rows))%list.
Proof.
  induction rows as [|[t|e] rows IH]; intros acc a; cbn.
  - by rewrite app_nil_r.
  - apply IH.
  - rewrite IH. cbn. by rewrite <- app_assoc.
Qed.

Lemma decodable_scan_errors_length (rows : list (result Transaction)) :
  (length (decodable rows) + length (scan_errors rows) = length rows)%nat.
Proof. induction rows as [|[t|e] rows IH]; cbn; lia. Qed.

(** X5.  A row that fails to scan does not fail the list: the answer is
    still 200, every such row leaves one "Row scan error" line in the log,
    in order, and is left out of the body; every other row is in the
    body.  No row is counted twice or lost between the two. *)
Theorem listTransactions_skips_bad_rows (w : W) (r : Request) (a : App DB)
    (d : DB) (rows : list (result Transaction)) :
  Query listQuery [ArgInt (fst (pagination r)); ArgInt (snd (pagination r))] (db a)
  = (d, Ok rows) ->
  let p := listTransactions r a in
  let a' := snd (run p w) in
  response_status (calls p w) = StatusOK
  /\ stdlog a'
     = (stdlog a
        ++ map (fun e => "Row scan error: " +:+ Error e) (scan_errors rows))%list
  /\ (decodable rows <> [] ->
      response_body (calls p w)
      = Marshal (JArray (map Transaction_json (decodable rows))) +:+ LF)
  /\ (length (decodable rows) + length (scan_errors rows) = length rows)%nat.
Proof.
  intros Hq p a'. subst p a'. unfold listTransactions.
  destruct (pagination r) as [limit offset]. cbn [fst snd] in Hq. rewrite Hq.
  destruct (scan_rows rows nil_slice (with_db d a)) as [ts a0] eqn:E.
  assert (Hts : ts = fst (scan_rows rows nil_slice (with_db d a))) by by rewrite E.
  assert (Ha0 : a0 = snd (scan_rows rows nil_slice (with_db d a))) by by rewrite E.
  cbn. destruct (Write _ _) as [w' [n err]]. cbn.
  split; [reflexivity|]. split; [|split].
  - rewrite Ha0, scan_rows_log. reflexivity.
  - intros Hne. rewrite append_empty_r, Hts, scan_rows_slice.
    destruct (decodable rows); [congruence | reflexivity].
  - apply decodable_scan_errors_length.
Qed.

(** X6.  A health check whose ping succeeds is answered 200: the
    content type is set to JSON first, then the body is the object with
    [status] "healthy" and [time] the clock's reading in RFC 3339.  The
    clock is read once; no instrument changes and nothing is logged. *)
Theorem healthCheck_healthy (w : W) (r : Request) (a : App DB) (d : DB) :
  Ping (db a) = (d, None) ->
  let p := healthCheck r a in
  let a' := snd (run p w) in
  response_status (calls p w) = StatusOK
  /\ hd_error (calls p w) = Some (HeaderSetCall "Content-Type" "application/json")
  /\ response_body (calls p w)
     = Marshal (JObject [("status", JString "healthy");
                         ("time", JString (FormatRFC3339 (wall a (reads a))))])
       +:+ LF
  /\ a' = snd (time_Now (with_db d a)).
Proof.
  intros Hp p a'. subst p a'. unfold healthCheck. rewrite Hp. cbn.
  destruct (Write _ _) as [w' [n err]]. cbn.
  repeat split; try apply append_empty_r.
Qed.

(** X7.  A health check whose ping fails is answered 503 with the
    object [status] "unhealthy", [error] "database connection failed".
    The status line is the handler's first call on the writer: on this
    path no [Content-Type] is set, unlike on every other JSON answer of
    the service.  The clock is not read and nothing is logged. *)
Theorem healthCheck_unhealthy_calls (w : W) (r : Request) (a : App DB) (d : DB)
    (e : sql_error) :
  Ping (db a) = (d, Some e) ->
  let p := healthCheck r a in
  hd_error (calls p w) = Some (WriteHeaderCall StatusServiceUnavailable)
  /\ Forall (fun c => forall k v, c <> HeaderSetCall k v) (calls p w)
  /\ response_body (calls p w)
     = Marshal (JObject [("error", JString "database connection failed");
                         ("status", JString "unhealthy")]) +:+ LF
  /\ snd (run p w) = with_db d a.
Proof.
  intros Hp p. subst p. unfold healthCheck. rewrite Hp. cbn.
  destruct (Write _ _) as [w' [n err]]. cbn.
  repeat split; [|apply append_empty_r].
  repeat constructor; discriminate.
Qed.

End HandlerProperties.

(** ** The middleware around the service's handlers *)

Lemma orderly_last_status (cs : list call) :
  orderly cs = true -> last_status cs 200 = response_status cs.
Proof.
  induction cs as [|[k v | code | b n err] cs IH]; cbn; intros Ho; auto.
  - apply last_status_no_WriteHeader. by destruct (existsb is_WriteHeader cs).
  - apply last_status_no_WriteHeader. by destruct (existsb is_WriteHeader cs).
Qed.

Section MiddlewareProperties.

Context `{JSONCodec} {DB : Type} `{SQLDB DB} {W : Type} `{http_ResponseWriter W}.

Lemma metricsMiddleware_unfold (next : Handler) (w : W) (r : Request) (a : App DB) :
  let p := next r (handler_entry r a) in
  let a2 := snd (run p w) in
  metricsMiddleware next w r a
  = (fst (run p w),
     record_response r (last_status (calls p w) 200)
       (Seconds (time_Sub (wall a2 (reads a2)) (wall a (reads a))))
       (wrap_int (bytes_written (calls p w)))
       (snd (time_Now a2))).
Proof.
  cbn zeta. unfold metricsMiddleware, handler_entry, time_Since, time_Now, ServeHTTP.
  cbn. set (a1 := if 0 <? ContentLength r then _ else _).
  change {| ResponseWriter := w; statusCode := 200; size := 0 |} with (wrap w).
  by rewrite run_wrap.
Qed.


Lemma handlers_orderly (h : Handler) (w : W) (r : Request) (a : App DB) :
  In h [createTransaction; listTransactions; getTransaction; healthCheck] ->
  orderly (calls (h r a) w) = true.
Proof.
  cbn. intros [<- | [<- | [<- | [<- | []]]]].
  - unfold createTransaction.
    destruct (DecodeRequest (Body r)) as [req|];
      [destruct (PrimFloat.leb (reqValue req) 0);
         [|destruct (QueryRow _ _ _) as [d [txn|e]]]|];
      cbn; by destruct (Write _ _) as [w' res].
  - unfold listTransactions. destruct (pagination r) as [limit offset].
    destruct (Query _ _ _) as [d [rows|e]];
      [destruct (scan_rows _ _ _) as [ts a0]|];
      cbn; by destruct (Write _ _) as [w' res].
  - unfold getTransaction.
    destruct (QueryRow _ _ _) as [d [txn | [|msg]]];
      cbn; by destruct (Write _ _) as [w' res].
  - unfold healthCheck.
    destruct (Ping (db a)) as [d [e|]];
      cbn; by destruct (Write _ _) as [w' res].
Qed.

Lemma handlers_http_instruments (h : Handler) (w : W) (r : Request) (a : App DB) :
  In h [createTransaction; listTransactions; getTransaction; healthCheck] ->
  http_instruments (snd (run (h r a) w)) = http_instruments a.
Proof.
  cbn. intros [<- | [<- | [<- | [<- | []]]]].
  - apply createTransaction_http_instruments.
  - apply listTransactions_frame.
  - apply getTransaction_frame.
  - apply healthCheck_frame.
Qed.

Lemma handler_entry_request_size (r : Request) (a : App DB) :
  httpRequestSize (handler_entry r a)
  = if 0 <? ContentLength r
    then HistogramVec_Observe [URL_Path r; Method r]
           (float64_of_int (ContentLength r)) (httpRequestSize a)
    else httpRequestSize a.
Proof. unfold handler_entry, time_Now. cbn. by destruct (0 <? ContentLength r). Qed.



End MiddlewareProperties.

(** ** The response size *)

Lemma string_length_append (s t : string) :
  String.length (s +:+ t) = (String.length s + String.length t)%nat.
Proof.
  induction s as [|c s IH]; [reflexivity|].
  change (S (String.length (s +:+ t)) = S (String.length s + String.length t)).
  by rewrite IH.
Qed.

Lemma append_empty_l (s : string) : EmptyString +:+ s = s.
Proof. reflexivity. Qed.

Lemma Recorder_bytes_written {A} (p : prog A) :
  forall rw : ResponseRecorder,
    bytes_written (calls p rw)
    = Z.of_nat (String.length (response_body (calls p rw))).
Proof.
  induction p as [a | k v rest IH | code rest IH | b rest IH]; intros rw; cbn.
  - reflexivity.
  - apply IH.
  - apply IH.
  - rewrite IH, string_length_append, Nat2Z.inj_add. reflexivity.
Qed.

Section ResponseSize.

Context `{JSONCodec} {DB : Type} `{SQLDB DB}.


End ResponseSize.

(** ** Label values and label names *)

Lemma arity_ok_insert {V} (labels lvs : list string) (v : V)
    (children : gmap (list string) V) :
  arity_ok labels children -> length lvs = length labels ->
  arity_ok labels (<[lvs := v]> children).
Proof.
  intros Hok Hlen k Hk. destruct (decide (lvs = k)) as [<- | Hne]; [exact Hlen|].
  rewrite lookup_insert_ne in Hk by exact Hne. by apply Hok.
Qed.

Lemma arity_ok_empty {V} (labels : list string) :
  arity_ok labels (∅ : gmap (list string) V).
Proof. intros k [x Hx]. by rewrite lookup_empty in Hx. Qed.

Section Labels.

Context `{JSONCodec} {DB : Type} `{SQLDB DB} {W : Type} `{http_ResponseWriter W}.

Lemma handlers_txnCounter (h : Handler) (w : W) (r : Request) (a : App DB) :
  In h [createTransaction; listTransactions; getTransaction; healthCheck] ->
  txnCounter (snd (run (h r a) w)) = txnCounter a
  \/ txnCounter (snd (run (h r a) w)) = CounterVec_Inc ["completed"] (txnCounter a).
Proof.
  cbn. intros [<- | [<- | [<- | [<- | []]]]].
  - unfold createTransaction.
    destruct (DecodeRequest (Body r)) as [req|];
      [destruct (PrimFloat.leb (reqValue req) 0);
         [|destruct (QueryRow _ _ _) as [d [txn|e]]]|];
      rewrite ?http_Error_then_Ret; auto.
    right. cbn. by destruct (Write _ _) as [w' res].
  - left. destruct (listTransactions_frame w r a) as [Hb _].
    unfold business_counters in Hb. by injection Hb as -> _ _.
  - left. destruct (getTransaction_frame w r a) as [Hb _].
    unfold business_counters in Hb. by injection Hb as -> _ _.
  - left. destruct (healthCheck_frame w r a) as [Hb _].
    unfold business_counters in Hb. by injection Hb as -> _ _.
Qed.

(** One request keeps the label invariant. *)
Lemma serving_step_label_arity (h : Handler) (w : W) (r : Request)
    (a : App DB) :
  In h [createTransaction; listTransactions; getTransaction; healthCheck] ->
  declared_labels a -> labels_ok a ->
  let a' := snd (metricsMiddleware h w r a) in
  declared_labels a' /\ labels_ok a'.
Proof.
  intros Hin (Ld & Lr & Lt & Lq & Ls) (Od & Or & Ot & Oq & Os) a'. subst a'.
  rewrite metricsMiddleware_unfold.
  pose proof (handlers_http_instruments h w r (handler_entry r a) Hin) as Hf.
  pose proof (handlers_txnCounter h w r (handler_entry r a) Hin) as Ht.
  destruct (handler_entry_frame r a) as (_ & Hb & Hreq & Hdur & Hsz & _).
  pose proof (handler_entry_request_size r a) as Hq.
  unfold http_instruments in Hf. injection Hf as Hf1 Hf2 Hf3 Hf4.
  unfold business_counters in Hb. injection Hb as Hb1 _ _.
  cbn -[handler_entry]. rewrite Hf1, Hf2, Hf3, Hf4, Hreq, Hdur, Hsz, Hq.
  assert (Htl : cv_labels (txnCounter (snd (run (h r (handler_entry r a)) w)))
                = ["status"]
                /\ arity_ok ["status"]
                     (cv_children
                        (txnCounter (snd (run (h r (handler_entry r a)) w))))).
  { destruct Ht as [-> | ->]; rewrite Hb1.
    - rewrite Lt in Ot. by split.
    - cbn. split; [exact Lt|]. apply arity_ok_insert; [by rewrite <- Lt|reflexivity]. }
  destruct Htl as [Htl Hto].
  split.
  - unfold declared_labels. cbn -[handler_entry].
    repeat split; auto. by destruct (0 <? ContentLength r).
  - unfold labels_ok. cbn -[handler_entry]. rewrite Htl.
    repeat split; auto.
    + apply arity_ok_insert; [exact Od | by rewrite Ld].
    + apply arity_ok_insert; [exact Or | by rewrite Lr].
    + destruct (0 <? ContentLength r); [|exact Oq].
      cbn. apply arity_ok_insert; [exact Oq | by rewrite Lq].
    + apply arity_ok_insert; [exact Os | by rewrite Ls].
Qed.

(** X12.  Serving keeps the label invariant: if every child of every
    vector is keyed by as many label values as [initMetrics] declared
    label names, the same holds after any sequence of requests served by
    the service's handlers under the middleware, and the declared names
    are unchanged.  ([WithLabelValues] panics on any other count.) *)
Theorem serving_keeps_label_arity (w : W) (reqs : list (Handler * Request))
    (a : App DB) :
  Forall (fun hr => In (fst hr) [createTransaction; listTransactions;
                                 getTransaction; healthCheck]) reqs ->
  declared_labels a -> labels_ok a ->
  declared_labels (serve_all w reqs a) /\ labels_ok (serve_all w reqs a).
Proof.
  unfold serve_all. revert a.
  induction reqs as [|[h r] reqs IH]; intros a Hall Hd Ho; cbn; [by split|].
  apply Forall_cons in Hall as [Hh Hall].
  destruct (serving_step_label_arity h w r a Hh Hd Ho) as [Hd' Ho'].
  by apply IH.
Qed.

Lemma createTransaction_counts (w : W) (r : Request) (a : App DB) :
  let a' := snd (run (createTransaction r a) w) in
  (c_value (txnErrorCounter a') + count_of (txnCounter a') ["completed"]
   = S (c_value (txnErrorCounter a) + count_of (txnCounter a) ["completed"]))%nat.
Proof.
  cbn zeta. unfold createTransaction.
  destruct (DecodeRequest (Body r)) as [req|];
    [destruct (PrimFloat.leb (reqValue req) 0);
       [|destruct (QueryRow _ _ _) as [d [txn|e]]]|];
    rewrite ?http_Error_then_Ret; try reflexivity.
  cbn. destruct (Write _ _) as [w' res]. cbn. rewrite count_of_Inc. lia.
Qed.

(** X20.  After any sequence of Create requests served under the
    middleware, [transactions_errors_total] and
    [transactions_total{status=completed}] together have grown by exactly
    the number of requests: every request is accounted for once, as a
    failure or as a completed transaction. *)
Theorem creates_all_accounted (w : W) (reqs : list Request) (a : App DB) :
  let a' := serve_all w (map (fun r => (createTransaction, r)) reqs) a in
  (c_value (txnErrorCounter a') + count_of (txnCounter a') ["completed"]
   = c_value (txnErrorCounter a) + count_of (txnCounter a) ["completed"]
     + length reqs)%nat.
Proof.
  cbn zeta. unfold serve_all. revert a.
  induction reqs as [|r reqs IH]; intros a; cbn [map fold_left fst snd length];
    [lia|].
  rewrite IH, metricsMiddleware_unfold. cbn -[handler_entry createTransaction].
  pose proof (createTransaction_counts w r (handler_entry r a)) as Hc.
  destruct (handler_entry_frame r a) as (_ & Hb & _).
  unfold business_counters in Hb. injection Hb as Hb1 _ Hb3.
  cbn zeta in Hc. rewrite Hb1, Hb3 in Hc. lia.
Qed.

End Labels.

Section Fresh.

Context {DB : Type}.


End Fresh.

(** ** The page sent to the store *)

Lemma Atoi_fits (s : string) (n : Z) : Atoi s = (n, None) -> fits_int n.
Proof.
  unfold Atoi, fits_int. destruct s as [|c s]; [discriminate|].
  destruct (if Ascii.eqb c "-" then _ else _) as [neg digits].
  destruct digits as [|c' digits']; [discriminate|].
  destruct (parse_digits _ _) as [v|]; [|discriminate].
  destruct (Z.ltb_spec (if neg then - v else v) minInt); [discriminate|].
  destruct (Z.ltb_spec maxInt (if neg then - v else v)); [discriminate|].
  intros [= <-]. lia.
Qed.

Section Page.

Context `{JSONCodec} {DB : Type} `{SQLDB DB} {W : Type} `{http_ResponseWriter W}.

(** X19.  Of a repeated [limit] parameter only the first value counts,
    also when that first value is empty or no number: whatever follows
    it in the query string is ignored. *)
Theorem pagination_first_limit_wins (v : string) (r : Request) :
  fst (pagination (with_limit v r)) = fst (pagination (getTransactions [("limit", v)]))
  /\ snd (pagination (with_limit v r)) = snd (pagination r).
Proof.
  unfold pagination, with_limit, getTransactions. cbn [URL_Query Values_Get fst snd].
  change (String.eqb "limit" "limit") with true.
  change (String.eqb "limit" "offset") with false. cbv iota.
  split; reflexivity.
Qed.

(** X18.  Whatever the query string, the store is asked for at least 1
    and at most 100 rows, from an offset that is not negative and is an
    [int]; the statement is sent exactly once, with those two
    arguments. *)
Theorem listTransactions_page_bounds (w : W) (r : Request) (a : App DB) :
  exists limit offset,
    1 <= limit <= 100 /\ 0 <= offset <= maxInt
    /\ db (snd (run (listTransactions r a) w))
       = fst (Query listQuery [ArgInt limit; ArgInt offset] (db a)).
Proof.
  exists (fst (pagination r)), (snd (pagination r)).
  destruct (pagination_in_range r) as [Hl Ho].
  split; [lia|]. split.
  - split; [exact Ho|].
    destruct (pagination_offset r) as [n Hn _ | _]; [|unfold maxInt; lia].
    apply Atoi_fits in Hn. unfold fits_int in Hn. lia.
  - unfold listTransactions. destruct (pagination r) as [limit offset]. cbn [fst snd].
    destruct (Query _ _ _) as [d [rows|e]]; cbn [fst].
    + destruct (scan_rows rows nil_slice (with_db d a)) as [ts a0] eqn:E.
      cbn. destruct (Write _ _) as [w' res]. cbn.
      change a0 with (snd (ts, a0)). rewrite <- E.
      by destruct (scan_rows_frame rows nil_slice (with_db d a)) as [-> _].
    + by rewrite http_Error_then_Ret.
Qed.

End Page.

(** ** The connection-pool sampler *)

Lemma sampler_snoc (readings : list DBStats) (latest : DBStats) (g : dbGauges) :
  sampler (readings ++ [latest]) g = sample latest (sampler readings g).
Proof. unfold sampler. by rewrite fold_left_app. Qed.

Lemma sampler_opts (readings : list DBStats) :
  forall g : dbGauges,
    let g' := sampler readings g in
    g_opts (dbMaxOpenConns g') = g_opts (dbMaxOpenConns g)
    /\ g_opts (dbOpenConns g') = g_opts (dbOpenConns g)
    /\ g_opts (dbInUseConns g') = g_opts (dbInUseConns g)
    /\ g_opts (dbIdleConns g') = g_opts (dbIdleConns g).
Proof.
  unfold sampler.
  induction readings as [|s readings IH]; intros g; cbn; [by repeat split|].
  cbn zeta in IH. destruct (IH (sample s g)) as (-> & -> & -> & ->).
  by repeat split.
Qed.

(** X17.  After any number of turns of the sampling loop the four
    gauges show the latest reading of the pool and nothing of the earlier
    ones (they are set, not added to), and keep their names. *)
Theorem sampler_shows_latest (readings : list DBStats) (latest : DBStats)
    (g : dbGauges) :
  let g' := sampler (readings ++ [latest]) g in
  g_value (dbMaxOpenConns g') = float64_of_int (MaxOpenConnections latest)
  /\ g_value (dbOpenConns g') = float64_of_int (OpenConnections latest)
  /\ g_value (dbInUseConns g') = float64_of_int (InUse latest)
  /\ g_value (dbIdleConns g') = float64_of_int (Idle latest)
  /\ g_opts (dbMaxOpenConns g') = g_opts (dbMaxOpenConns g)
  /\ g_opts (dbOpenConns g') = g_opts (dbOpenConns g)
  /\ g_opts (dbInUseConns g') = g_opts (dbInUseConns g)
  /\ g_opts (dbIdleConns g') = g_opts (dbIdleConns g).
Proof.
  cbn zeta. rewrite sampler_snoc. cbn.
  destruct (sampler_opts readings g) as (-> & -> & -> & ->). by repeat split.
Qed.

(** ** The router *)

Lemma segments_no_slash (s : string) : has_slash s = false -> segments s = [s].
Proof.
  induction s as [|c s IH]; cbn; [reflexivity|].
  destruct (Ascii.eqb c "/"); cbn; [discriminate|].
  intros Hs. by rewrite (IH Hs).
Qed.

Lemma ends_with_slash_no_slash (s : string) :
  has_slash s = false -> ends_with_slash s = false.
Proof.
  induction s as [|c s IH]; cbn; [reflexivity|].
  destruct (Ascii.eqb c "/"); cbn; [discriminate|].
  intros Hs. destruct s; [reflexivity | by apply IH].
Qed.

Lemma Router_Match_route (routes : list Route) (m : string) (segs : list string) :
  forall (mismatch : bool) (rt : route) (vars : gmap string string),
    Router_Match routes m segs mismatch = Matched rt vars ->
    exists R, In R routes
              /\ existsb (String.eqb m) (route_methods R) = true
              /\ route_target R = rt
              /\ match_template (path_template R) segs ∅ = Some vars.
Proof.
  induction routes as [|R routes IH]; intros mismatch rt vars; cbn.
  - by destruct mismatch.
  - destruct (match_template (path_template R) segs ∅) as [vars'|] eqn:Et.
    + destruct (existsb (String.eqb m) (route_methods R)) eqn:Em.
      * intros [= <- <-]. exists R. auto.
      * intros Hm. destruct (IH _ _ _ Hm) as (R' & Hin & HR'). exists R'. auto.
    + intros Hm. destruct (IH _ _ _ Hm) as (R' & Hin & HR'). exists R'. auto.
Qed.

(** X15.  The route table, read as a decision: a request reaches a
    handler exactly when it is POST /transactions (Create), GET
    /transactions (List), GET /transactions/{id} with a non-empty id
    (Get, the id stored under "id"), GET /health or GET /metrics.  No
    route shadows another. *)
Theorem router_table (m : string) (segs : list string) (rt : route)
    (vars : gmap string string) :
  Router_Match setupRoutes m segs false = Matched rt vars
  <-> (m = "POST" /\ segs = ["transactions"] /\ rt = RouteCreate /\ vars = ∅)
      \/ (m = "GET" /\ segs = ["transactions"] /\ rt = RouteList /\ vars = ∅)
      \/ (m = "GET" /\ (exists id, id <> "" /\ segs = ["transactions"; id]
                                  /\ vars = <["id" := id]> ∅)
          /\ rt = RouteGet)
      \/ (m = "GET" /\ segs = ["health"] /\ rt = RouteHealth /\ vars = ∅)
      \/ (m = "GET" /\ segs = ["metrics"] /\ rt = RouteMetrics /\ vars = ∅).
Proof.
  split.
  - intros Hm. apply Router_Match_route in Hm as (R & Hin & Hmeth & <- & Ht).
    cbn in Hin.
    destruct Hin as [<- | [<- | [<- | [<- | [<- | []]]]]];
      cbn [path_template route_methods route_target existsb] in Hmeth, Ht |- *;
      rewrite orb_false_r in Hmeth; apply String.eqb_eq in Hmeth; subst m.
    + left. destruct segs as [|s [|s' segs]]; cbn [match_template] in Ht;
        try discriminate; try (by destruct (String.eqb _ s)).
      destruct (String.eqb_spec "transactions" s); [|discriminate].
      injection Ht as <-. by subst s.
    + right; left. destruct segs as [|s [|s' segs]]; cbn [match_template] in Ht;
        try discriminate; try (by destruct (String.eqb _ s)).
      destruct (String.eqb_spec "transactions" s); [|discriminate].
      injection Ht as <-. by subst s.
    + right; right; left. destruct segs as [|s [|id [|s'' segs]]];
        cbn [match_template] in Ht; try discriminate;
        destruct (String.eqb_spec "transactions" s); try discriminate.
      * destruct (String.eqb_spec id ""); [discriminate|].
        injection Ht as <-. subst s. split; [reflexivity|]. split; [|reflexivity].
        by exists id.
      * by destruct (String.eqb id "").
    + right; right; right; left. destruct segs as [|s [|s' segs]]; cbn [match_template] in Ht;
        try discriminate; try (by destruct (String.eqb _ s)).
      destruct (String.eqb_spec "health" s); [|discriminate].
      injection Ht as <-. by subst s.
    + right; right; right; right. destruct segs as [|s [|s' segs]]; cbn [match_template] in Ht;
        try discriminate; try (by destruct (String.eqb _ s)).
      destruct (String.eqb_spec "metrics" s); [|discriminate].
      injection Ht as <-. by subst s.
  - intros [(-> & -> & -> & ->) | [(-> & -> & -> & ->) |
            [(-> & (id & Hid & -> & ->) & ->) | [(-> & -> & -> & ->) |
             (-> & -> & -> & ->)]]]]; try reflexivity.
    cbn. apply String.eqb_neq in Hid. by rewrite Hid.
Qed.

Section RouterProperties.

Context `{JSONCodec} {DB : Type} `{SQLDB DB} {W : Type} `{http_ResponseWriter W}.

Variable promhttp_Handler : @Handler DB.
Variable redirect_url : Request -> string -> string.

Lemma cleanPath_transaction_id (id : string) :
  id <> "" -> has_slash id = false -> id <> "." -> id <> ".." ->
  cleanPath ("/transactions/" +:+ id) = "/transactions/" +:+ id
  /\ path_segments ("/transactions/" +:+ id) = ["transactions"; id].
Proof.
  intros Hne Hs Hdot Hdots.
  apply String.eqb_neq in Hdot, Hdots.
  assert (Hseg : segments ("/transactions/" +:+ id) = [""; "transactions"; id]).
  { cbv [String.append]. cbn. by rewrite (segments_no_slash id Hs). }
  split.
  - unfold cleanPath, path_Clean.
    change ("/transactions/" +:+ id) with (String "/" ("transactions/" +:+ id)) at 1.
    cbv iota beta. change (Ascii.eqb "/" "/") with true. cbv iota.
    change (String "/" ("transactions/" +:+ id)) with ("/transactions/" +:+ id).
    rewrite Hseg.
    assert (He : ends_with_slash ("/transactions/" +:+ id) = false).
    { cbv [String.append]. destruct id as [|c id]; [congruence|].
      change (ends_with_slash (String c id) = false).
      by apply ends_with_slash_no_slash. }
    rewrite He. cbn [andb]. cbv iota.
    cbn [clean_segments String.eqb orb Ascii.eqb Bool.eqb].
    apply String.eqb_neq in Hne. rewrite Hne, Hdot, Hdots. cbn.
    reflexivity.
  - unfold path_segments. by rewrite Hseg.
Qed.

(** X14.  GET /transactions/{id}, for any id that is one path piece
    (not empty, no slash, not a dot name), reaches [getTransaction] under
    the middleware with that very text as the variable "id": what the
    handler hands to the store is the text of the path. *)
Theorem router_get_by_id (w : W) (r : Request) (a : App DB) (id : string) :
  Method r = "GET" ->
  URL_Path r = "/transactions/" +:+ id ->
  id <> "" -> has_slash id = false -> id <> "." -> id <> ".." ->
  Router_ServeHTTP promhttp_Handler redirect_url w r a
  = metricsMiddleware getTransaction w (with_Vars (<["id" := id]> ∅) r) a
  /\ Vars_get (with_Vars (<["id" := id]> ∅) r) "id" = id.
Proof.
  intros Hm Hp Hne Hs Hdot Hdots.
  destruct (cleanPath_transaction_id id Hne Hs Hdot Hdots) as [Hc Hsegs].
  split.
  - unfold Router_ServeHTTP. rewrite Hp, Hc, String.eqb_refl, Hsegs, Hm. cbn.
    apply String.eqb_neq in Hne. by rewrite Hne.
  - unfold Vars_get. cbn. by rewrite lookup_insert_eq.
Qed.

(** X16.  A request whose method is neither GET nor POST never reaches a
    handler or the middleware: the application is left exactly as it
    was (no instrument moves, the store is not called, the clock is not
    read), and the router itself answers with a redirect, 405 or 404. *)
Theorem other_methods_never_served (w : W) (r : Request) (a : App DB) :
  Method r <> "GET" -> Method r <> "POST" ->
  let served := Router_ServeHTTP promhttp_Handler redirect_url w r a in
  snd served = a
  /\ (fst served
      = WriteHeader StatusMovedPermanently
          (HeaderSet "Location" (redirect_url r (cleanPath (URL_Path r))) w)
      \/ fst served = WriteHeader StatusMethodNotAllowed w
      \/ fst served = fst (run (http_Error "404 page not found" StatusNotFound) w)).
Proof.
  intros Hget Hpost. cbn zeta. unfold Router_ServeHTTP.
  destruct (negb (String.eqb (cleanPath (URL_Path r)) (URL_Path r))); [by auto|].
  destruct (Router_Match setupRoutes (Method r) (path_segments (URL_Path r)) false)
    as [rt vars | |] eqn:Em; [|by auto..].
  apply Router_Match_route in Em as (R & Hin & Hmeth & _).
  cbn in Hin.
  destruct Hin as [<- | [<- | [<- | [<- | [<- | []]]]]];
    cbn [route_methods existsb] in Hmeth;
    rewrite orb_false_r in Hmeth; apply String.eqb_eq in Hmeth; congruence.
Qed.

End RouterProperties.

(** ** The further properties at work on the in-memory service *)

Lemma startApp_labels (d : memDB) :
  declared_labels (startApp d) /\ labels_ok (startApp d).
Proof. split; repeat split; apply arity_ok_empty. Qed.

Lemma In_createTransaction :
  In (@createTransaction tableCodec memDB memDB_SQLDB)
    [createTransaction; listTransactions; getTransaction; healthCheck].
Proof. left. reflexivity. Defined.

(** A body that is no JSON. *)
Lemma createTransaction_malformed_body_witness :
  let p := createTransaction (postTransaction "not json") (startApp emptyDB) in
  let a' := snd (run p NewRecorder) in
  response_status (calls p NewRecorder) = StatusBadRequest
  /\ c_value (txnErrorCounter a') = 1%nat
  /\ db a' = emptyDB.
Proof.
  cbv zeta.
  edestruct (createTransaction_malformed_body NewRecorder
               (postTransaction "not json") (startApp emptyDB))
    as (H1 & _ & H3 & H4 & _); [reflexivity |].
  split; [exact H1 | split; [exact H3 | exact H4]].
Defined.

(** GET /transactions/1 on a table that holds transaction 1. *)
Lemma getTransaction_found_witness :
  let p := getTransaction (getTransactionByID "1") (startApp oneRowDB) in
  response_status (calls p NewRecorder) = StatusOK
  /\ response_body (calls p NewRecorder)
     = Marshal (Transaction_json firstTransaction) +:+ LF.
Proof.
  cbv zeta.
  edestruct (getTransaction_found NewRecorder (getTransactionByID "1")
               (startApp oneRowDB))
    as (H1 & _ & H3 & _); [reflexivity |].
  split; [exact H1 | exact H3].
Defined.

(** A page with one row that scans and one that does not. *)
Lemma listTransactions_skips_bad_rows_witness :
  let p := listTransactions (getTransactions []) (startApp mixedDB) in
  response_status (calls p NewRecorder) = StatusOK
  /\ length (stdlog (snd (run p NewRecorder))) = 1%nat
  /\ response_body (calls p NewRecorder)
     = Marshal (JArray [Transaction_json firstTransaction]) +:+ LF.
Proof.
  cbv zeta.
  edestruct (listTransactions_skips_bad_rows NewRecorder (getTransactions [])
               (startApp mixedDB))
    as (H1 & H2 & H3 & _); [reflexivity |].
  split; [exact H1 | split; [by rewrite H2 | apply H3; discriminate]].
Defined.

Lemma healthCheck_healthy_witness :
  let p := healthCheck getHealth (startApp emptyDB) in
  response_status (calls p NewRecorder) = StatusOK
  /\ reads (snd (run p NewRecorder)) = 1%nat.
Proof.
  cbv zeta.
  edestruct (healthCheck_healthy NewRecorder getHealth (startApp emptyDB))
    as (H1 & _ & _ & H4); [reflexivity |].
  split; [exact H1 | by rewrite H4].
Defined.

Lemma healthCheck_unhealthy_calls_witness :
  let p := healthCheck getHealth (startApp downDB) in
  hd_error (calls p NewRecorder) = Some (WriteHeaderCall StatusServiceUnavailable)
  /\ snd (run p NewRecorder) = startApp downDB.
Proof.
  cbv zeta.
  edestruct (healthCheck_unhealthy_calls NewRecorder getHealth (startApp downDB))
    as (H1 & _ & _ & H4); [reflexivity |].
  split; [exact H1 | exact H4].
Defined.




Lemma serving_keeps_label_arity_witness :
  labels_ok (serve_all NewRecorder
               [(createTransaction, postTransaction body_150_75);
                (getTransaction, getTransactionByID "1");
                (listTransactions, getTransactions [])]
               (startApp emptyDB)).
Proof.
  edestruct (serving_keeps_label_arity NewRecorder
               [(createTransaction, postTransaction body_150_75);
                (getTransaction, getTransactionByID "1");
                (listTransactions, getTransactions [])]
               (startApp emptyDB)) as [_ H2].
  - constructor; [cbn; auto 10 | constructor; [cbn; auto 10 |
      constructor; [cbn; auto 10 | constructor]]].
  - exact (proj1 (startApp_labels emptyDB)).
  - exact (proj2 (startApp_labels emptyDB)).
  - exact H2.
Defined.

(** A create followed by lookups on the in-memory service: the row
    created is the row found and listed. *)
Example create_then_read :
  let a1 := snd (metricsMiddleware createTransaction NewRecorder
                   (postTransaction body_150_75) (startApp emptyDB)) in
  let got := metricsMiddleware getTransaction NewRecorder
               (getTransactionByID "1") a1 in
  let listed := metricsMiddleware listTransactions NewRecorder
                  (getTransactions []) (snd got) in
  Code (fst got) = 200
  /\ Written (fst got) = marshal (Transaction_json firstTransaction) +:+ LF
  /\ Written (fst listed)
     = marshal (JArray [Transaction_json firstTransaction]) +:+ LF
  /\ count_of (txnCounter (snd listed)) ["completed"] = 1%nat
  /\ c_value (txnErrorCounter (snd listed)) = 0%nat.
Proof. vm_compute. repeat split. Qed.

Lemma router_get_by_id_witness :
  Router_ServeHTTP healthCheck (fun _ p => p) NewRecorder
    (getTransactionByID "42") (startApp emptyDB)
  = metricsMiddleware getTransaction NewRecorder
      (with_Vars (<["id" := "42"]> ∅) (getTransactionByID "42")) (startApp emptyDB).
Proof.
  edestruct (router_get_by_id healthCheck (fun _ p => p) NewRecorder
               (getTransactionByID "42") (startApp emptyDB) "42")
    as [H1 _]; [reflexivity | reflexivity | discriminate | reflexivity
               | discriminate | discriminate |].
  exact H1.
Defined.

Lemma other_methods_never_served_witness :
  snd (Router_ServeHTTP healthCheck (fun _ p => p) NewRecorder
         (deleteTransaction "1") (startApp oneRowDB))
  = startApp oneRowDB.
Proof.
  edestruct (other_methods_never_served healthCheck (fun _ p => p) NewRecorder
               (deleteTransaction "1") (startApp oneRowDB))
    as [H1 _]; [discriminate | discriminate |].
  exact H1.
Defined.

(** The router on the in-memory service. *)
Example router_examples :
  let serve := Router_ServeHTTP healthCheck (fun _ p => p) NewRecorder in
  Code (fst (serve (deleteTransaction "1") (startApp oneRowDB))) = 405
  /\ Code (fst (serve (getTransactionByID "1") (startApp oneRowDB))) = 200
  /\ Code (fst (serve (getTransactionByID "") (startApp oneRowDB))) = 404
  /\ Code (fst (serve (getTransactionByID "7/../1") (startApp oneRowDB))) = 301
  /\ Code (fst (serve (postTransaction body_150_75) (startApp emptyDB))) = 201
  /\ Code (fst (serve getHealth (startApp downDB))) = 503.
Proof. vm_compute. repeat split. Qed.
